(** * HTML to PDF conversion service (DeepSeekExporToPDF)

    A shallow embedding of the REST server ([api_server], the file that
    registers the routes [/api/convert/string], [/api/convert/file],
    [/api/convert/url] and [/api/options]) and of the command line converter
    [html_to_pdf_converter.js], followed by the properties of the conversion
    pipeline that its specification states.

    JavaScript values are an inductive type, numbers are IEEE 754 doubles
    (primitive floats), objects are property lists.  Code with effects runs
    in a state-and-exception monad over a [world] made of the file system,
    the heap of rendering-engine instances and the response object of the
    request being served; every computation also yields the list of the
    observable events it performed, in chronological order.  The rendering
    engine (puppeteer-html-pdf), [JSON.parse], the clock and the random
    generator are external: they are the fields of an environment [Env]
    over which every statement is quantified. *)

From Stdlib Require Import Ascii String List ZArith NArith Bool PrimFloat Lia.
From stdpp Require Import base option list gmap strings pretty.
Import ListNotations.
#[local] Open Scope string_scope.
#[local] Open Scope list_scope.
#[local] Set Warnings "-register-all".

(** ** JavaScript values *)

Module JS.

Inductive value : Type :=
| VUndefined
| VNull
| VBool (b : bool)
| VNum (x : float)
| VStr (s : string)
| VArr (xs : list value)
| VObj (props : list (string * value)).

(** Own property of an object literal or of a parsed JSON object: the
    value bound to [k], [undefined] when there is none. *)
Fixpoint own_prop (props : list (string * value)) (k : string) : value :=
  match props with
  | [] => VUndefined
  | (k', v) :: rest => if String.eqb k' k then v else own_prop rest k
  end.

Definition has_prop (props : list (string * value)) (k : string) : bool :=
  existsb (fun kv => String.eqb (fst kv) k) props.

(** [v.k] for a value that is neither [null] nor [undefined].  The keys this
    program reads ([html], [url], [options], [format], [orientation],
    [margin], [printBackground], [scale], [timeout], [headless]) are no
    property of a boxed primitive, of an array or of [Object.prototype], so
    reading them from anything but an object yields [undefined]. *)
Definition get (v : value) (k : string) : value :=
  match v with
  | VObj props => own_prop props k
  | _ => VUndefined
  end.

Definition nullish (v : value) : bool :=
  match v with
  | VUndefined | VNull => true
  | _ => false
  end.

(** Default of a destructuring pattern or of a parameter ([x = d]): used
    when, and only when, the incoming value is [undefined]. *)
Definition or_default (v d : value) : value :=
  match v with
  | VUndefined => d
  | _ => v
  end.

(** [!v] is [true] exactly on the falsy values. *)
Definition falsy (v : value) : bool :=
  match v with
  | VUndefined | VNull => true
  | VBool b => negb b
  | VNum x => PrimFloat.eqb x 0%float || negb (PrimFloat.eqb x x)
  | VStr s => String.eqb s EmptyString
  | VArr _ | VObj _ => false
  end.

(** [v === 'lit']: strict equality with a string literal. *)
Definition strict_eq_str (v : value) (lit : string) : bool :=
  match v with
  | VStr s => String.eqb s lit
  | _ => false
  end.

(** [s.endsWith(suffix)] *)
Definition endsWith (s suffix : string) : bool :=
  let n := String.length s in
  let m := String.length suffix in
  if Nat.leb m n then String.eqb (substring (n - m) m s) suffix else false.

(** A parsed JSON document holds no [undefined]; at the top level of an
    object this is what makes "absent" and "undefined" the same thing. *)
Definition json_props (props : list (string * value)) : bool :=
  forallb (fun kv => match snd kv with VUndefined => false | _ => true end) props.

End JS.
Export JS.

(** ** The world: file system, rendering engines, response *)

(** The options object handed to [htmlPDF.setOptions].  [path] is set by the
    command line converter only. *)
Record PdfOptions : Type := mkPdfOptions {
  pdf_format : value;
  pdf_landscape : bool;
  pdf_margin : value;
  pdf_printBackground : value;
  pdf_scale : value;
  pdf_timeout : value;
  pdf_headless : value;
  pdf_path : option string;
  pdf_args : list string
}.

(** One [PuppeteerHTMLPDF] instance: the options last set and whether its
    browser process is running. *)
Record engine : Type := mkEngine {
  eng_options : option PdfOptions;
  eng_browser_open : bool
}.

Inductive body : Type :=
| BodyNone
| BodyJson (v : value)
| BodyBuffer (b : string).

(** The Express response object [res]. *)
Record response : Type := mkResponse {
  status : N;
  headers : list (string * string);
  res_body : body
}.

Definition fresh_response : response := mkResponse 200 [] BodyNone.

(** [fs] holds the regular files, by path, with their contents.
    Directories are not part of the state: making one ([ensureDir]) shows in
    the trace of the run, as an [EvEnsureDir] event, and nowhere else. *)
Record world : Type := mkWorld {
  fs : gmap string string;
  engines : list engine;
  res : response
}.

Definition set_fs (f : gmap string string -> gmap string string) (w : world) : world :=
  mkWorld (f (fs w)) (engines w) (res w).
Definition set_engines (f : list engine -> list engine) (w : world) : world :=
  mkWorld (fs w) (f (engines w)) (res w).
Definition set_res (f : response -> response) (w : world) : world :=
  mkWorld (fs w) (engines w) (f (res w)).

Inductive event : Type :=
| EvSetOptions (h : nat) (o : PdfOptions)
| EvCreate (h : nat) (content : value)
| EvCloseBrowser (h : nat)
| EvPathExists (p : string)
| EvEnsureDir (p : string)
| EvReadFile (p : string)
| EvWriteFile (p : string)
| EvRemove (p : string)
| EvConsoleLog (s : string)
| EvConsoleError (s : string).

(** What one call of the engine's [create] does: it resolves with the PDF
    bytes, rejects with an error, or rejects because its timeout expired. *)
Inductive outcome : Type :=
| Rendered (pdf : string)
| EngineError (msg : string)
| TimedOut (msg : string).

Inductive completion (A : Type) : Type :=
| Normal (a : A)
| Throw (message : string).
Arguments Normal {A} a.
Arguments Throw {A} message.

(** Everything the program takes from outside. *)
Record Env : Type := mkEnv {
  dirname : string;
  date_now : N;
  date_iso : string;
  random_1e9 : N;
  JSON_parse : string -> completion value;
  path_dirname : string -> string;
  render : option PdfOptions -> value -> outcome
}.

(** ** The monad of effectful code *)

Definition M (A : Type) : Type := world -> completion A * world * list event.

Definition ret {A} (a : A) : M A := fun w => (Normal a, w, []).

Definition throw {A} (msg : string) : M A := fun w => (Throw msg, w, []).

Definition bind {A B} (c : M A) (k : A -> M B) : M B :=
  fun w =>
    match c w with
    | (Normal a, w1, evs1) =>
        match k a w1 with
        | (r, w2, evs2) => (r, w2, evs1 ++ evs2)
        end
    | (Throw msg, w1, evs1) => (Throw msg, w1, evs1)
    end.

Notation "'let!' x ':=' c 'in' k" := (bind c (fun x => k))
  (at level 10, x name, c at level 100, k at level 200).
Notation "'do!' c 'in' k" := (bind c (fun _ => k))
  (at level 10, c at level 100, k at level 200).

(** [try { body } catch (error) { handler }] *)
Definition try_catch {A} (body : M A) (handler : string -> M A) : M A :=
  fun w =>
    match body w with
    | (Normal a, w1, evs1) => (Normal a, w1, evs1)
    | (Throw msg, w1, evs1) =>
        match handler msg w1 with
        | (r, w2, evs2) => (r, w2, evs1 ++ evs2)
        end
    end.

(** [try { body } finally { final }]: [final] runs whatever [body] did, and
    its own exception, if any, replaces the completion of [body]. *)
Definition try_finally {A} (body : M A) (final : M unit) : M A :=
  fun w =>
    match body w with
    | (r, w1, evs1) =>
        match final w1 with
        | (Normal _, w2, evs2) => (r, w2, evs1 ++ evs2)
        | (Throw msg, w2, evs2) => (Throw msg, w2, evs1 ++ evs2)
        end
    end.

Definition emit (e : event) : M unit := fun w => (Normal tt, w, [e]).

Definition lift {A} (c : completion A) : M A := fun w => (c, w, []).

Definition console_log (s : string) : M unit := emit (EvConsoleLog s).
Definition console_error (s : string) : M unit := emit (EvConsoleError s).

(** Projections of a run. *)
Definition result_of {A} (r : completion A * world * list event) : completion A := fst (fst r).
Definition world_of {A} (r : completion A * world * list event) : world := snd (fst r).
Definition events_of {A} (r : completion A * world * list event) : list event := snd r.

(** ** Runtime operations: rendering engine, file system, response *)

Definition dquote : string := String "034"%char EmptyString.

(** [new PuppeteerHTMLPDF()]: a new engine instance, no options, no browser.
    Its handle is its index in the heap. *)
Definition new_PuppeteerHTMLPDF : M nat :=
  fun w =>
    (Normal (length (engines w)),
     set_engines (fun es => es ++ [mkEngine None false]) w,
     []).

(** [htmlPDF.setOptions(o)] *)
Definition setOptions (h : nat) (o : PdfOptions) : M unit :=
  fun w =>
    (Normal tt,
     set_engines (alter (fun e => mkEngine (Some o) (eng_browser_open e)) h) w,
     [EvSetOptions h o]).

(** [htmlPDF.closeBrowser()]: ends the browser process of the instance, if
    any; the engine's own teardown is taken to succeed. *)
Definition closeBrowser (h : nat) : M unit :=
  fun w =>
    (Normal tt,
     set_engines (alter (fun e => mkEngine (eng_options e) false) h) w,
     [EvCloseBrowser h]).

Section Runtime.
Context (env : Env).

(** [htmlPDF.create(content)]: launches the browser of the instance, then
    renders.  What the render does is the environment's; on success with a
    [path] option the engine also saves the document at that path. *)
Definition create (h : nat) (content : value) : M string :=
  fun w =>
    let o := engines w !! h ≫= eng_options in
    let w1 := set_engines (alter (fun e => mkEngine (eng_options e) true) h) w in
    match render env o content with
    | Rendered pdf =>
        match o ≫= pdf_path with
        | Some p => (Normal pdf, set_fs (insert p pdf) w1, [EvCreate h content; EvWriteFile p])
        | None => (Normal pdf, w1, [EvCreate h content])
        end
    | EngineError msg => (Throw msg, w1, [EvCreate h content])
    | TimedOut msg => (Throw msg, w1, [EvCreate h content])
    end.

End Runtime.

(** [fs.pathExists(p)] *)
Definition pathExists (p : string) : M bool :=
  fun w => (Normal (bool_decide (is_Some (fs w !! p))), w, [EvPathExists p]).

(** [fs.ensureDir(p)], [fs.ensureDirSync(p)]: makes the directory when it
    is not there.  No regular file changes; the directory is recorded in
    the trace. *)
Definition ensureDir (p : string) : M unit := emit (EvEnsureDir p).

(** [fs.readFile(p, 'utf-8')] *)
Definition readFile (p : string) : M string :=
  fun w =>
    match fs w !! p with
    | Some text => (Normal text, w, [EvReadFile p])
    | None =>
        (Throw ("ENOENT: no such file or directory, open '" +:+ p +:+ "'"), w,
         [EvReadFile p])
    end.

Definition writeFile (p : string) (data : string) : M unit :=
  fun w => (Normal tt, set_fs (insert p data) w, [EvWriteFile p]).

(** [fs.remove(p)] *)
Definition remove (p : string) : M unit :=
  fun w => (Normal tt, set_fs (delete p) w, [EvRemove p]).

Definition header (k : string) (hs : list (string * string)) : option string :=
  snd <$> find (fun kv => String.eqb (fst kv) k) hs.

Definition set_header (k v : string) (hs : list (string * string)) : list (string * string) :=
  (k, v) :: List.filter (fun kv => negb (String.eqb (fst kv) k)) hs.

(** [res.status(code)] *)
Definition res_status (code : N) : M unit :=
  fun w => (Normal tt, set_res (fun r => mkResponse code (headers r) (res_body r)) w, []).

(** [res.setHeader(k, v)] *)
Definition res_setHeader (k v : string) : M unit :=
  fun w =>
    (Normal tt,
     set_res (fun r => mkResponse (status r) (set_header k v (headers r)) (res_body r)) w,
     []).

(** [res.json(v)] *)
Definition res_json (v : value) : M unit :=
  fun w =>
    (Normal tt,
     set_res (fun r => mkResponse (status r)
                         (set_header "Content-Type" "application/json; charset=utf-8" (headers r))
                         (BodyJson v)) w,
     []).

(** [res.send(buffer)]: the content type is left alone when one is set. *)
Definition res_send (buffer : string) : M unit :=
  fun w =>
    (Normal tt,
     set_res (fun r => mkResponse (status r)
                         (match header "Content-Type" (headers r) with
                          | Some _ => headers r
                          | None => set_header "Content-Type" "application/octet-stream" (headers r)
                          end)
                         (BodyBuffer buffer)) w,
     []).

(** [{ error: msg }] *)
Definition error_json (msg : string) : value := VObj [("error", VStr msg)].

(** Number of [create] calls in a run. *)
Definition is_create (e : event) : bool :=
  match e with EvCreate _ _ => true | _ => false end.
Definition renders (evs : list event) : nat := length (List.filter is_create evs).

(** ** The REST server *)

Module Server.

(** The six bindings of the destructuring pattern of [convertHTML]. *)
Record RenderOptions : Type := mkRenderOptions {
  format : value;
  orientation : value;
  margin : value;
  printBackground : value;
  scale : value;
  timeout : value
}.

Definition default_margin : value :=
  VObj [("top", VStr "20px"); ("bottom", VStr "20px");
        ("left", VStr "20px"); ("right", VStr "20px")].

(** The message of the [TypeError] thrown when [null] is destructured.  The
    wording is the runtime's and differs between its versions; what is
    stated below of the failure does not depend on it. *)
Definition destructure_error : string :=
  "Cannot destructure property 'format' of 'options' as it is null.".

(** [const { format = 'A4', orientation = 'portrait', margin = {...},
             printBackground = true, scale = 1.0, timeout = 30000 } = options;] *)
Definition resolve (options : value) : completion RenderOptions :=
  if nullish options then Throw destructure_error
  else Normal {|
    format := or_default (get options "format") (VStr "A4");
    orientation := or_default (get options "orientation") (VStr "portrait");
    margin := or_default (get options "margin") default_margin;
    printBackground := or_default (get options "printBackground") (VBool true);
    scale := or_default (get options "scale") (VNum 1.0%float);
    timeout := or_default (get options "timeout") (VNum 30000%float)
  |}.

(** [const pdfOptions = { format, landscape: orientation === 'landscape', ... }] *)
Definition pdfOptions (o : RenderOptions) : PdfOptions := {|
  pdf_format := format o;
  pdf_landscape := strict_eq_str (orientation o) "landscape";
  pdf_margin := margin o;
  pdf_printBackground := printBackground o;
  pdf_scale := scale o;
  pdf_timeout := timeout o;
  pdf_headless := VStr "new";
  pdf_path := None;
  pdf_args := ["--no-sandbox"; "--disable-setuid-sandbox"]
|}.

(** An uploaded file as multer presents it to [fileFilter] and to the
    storage callbacks, with the bytes that follow. *)
Record file_part : Type := mkFilePart {
  fieldname : string;
  originalname : string;
  mimetype : string;
  content : string
}.

(** [req.body.options] as multer assembles it from the text fields named
    [options]: absent, the text of the one field, or, when the field is
    repeated, the array of the texts in their order. *)
Inductive text_field : Type :=
| NoField
| OneField (text : string)
| Repeated (texts : list string).

(** A [multipart/form-data] request: at most one file, and the [options]
    text field; no other text field is read. *)
Record multipart : Type := mkMultipart {
  mp_file : option file_part;
  mp_options : text_field
}.

(** A request as Express hands it to the routes, past the [cors] and body
    parsing middleware: the route it matches with the parsed body, or no
    route at all.  [Unrouted method path] stands for a request that [cors]
    passes on and that matches none of the five routes; the model does not
    match [method] and [path] against the routes itself.  What [cors] does
    on its own (the headers it adds, its answer to [OPTIONS] requests) is
    not part of the model. *)
Inductive request : Type :=
| GetHealth
| GetOptions
| PostConvertString (req_body : value)
| PostConvertFile (form : multipart)
| PostConvertUrl (req_body : value)
| Unrouted (method path : string).

(** [limits: { fileSize: 10 * 1024 * 1024 }] *)
Definition fileSize : N := 10 * 1024 * 1024.

(** [fileFilter]: [cb(null, true)] or [cb(new Error(...), false)]. *)
Definition fileFilter (file : file_part) : completion bool :=
  if String.eqb (mimetype file) "text/html" || endsWith (originalname file) ".html"
  then Normal true
  else Throw "Only HTML files are allowed!".

Definition content_disposition : string :=
  "attachment; filename=" +:+ dquote +:+ "converted.pdf" +:+ dquote.

Definition formats : list string :=
  ["A4"; "Letter"; "Legal"; "Tabloid"; "Ledger"; "A0"; "A1"; "A2"; "A3"; "A5"; "A6"].

Definition orientations : list string := ["portrait"; "landscape"].

Definition defaultOptions : value :=
  VObj [("format", VStr "A4");
        ("orientation", VStr "portrait");
        ("margin", VObj [("top", VStr "20px"); ("bottom", VStr "20px");
                         ("left", VStr "20px"); ("right", VStr "20px")]);
        ("printBackground", VBool true);
        ("scale", VNum 1.0%float);
        ("timeout", VNum 30000%float)].

Section Routes.
Context (env : Env).

(** [new HTMLToPDFConverter()]: the object holds one engine, [this.htmlPDF],
    and is identified with it. *)
Definition new_HTMLToPDFConverter : M nat := new_PuppeteerHTMLPDF.

(** [async convertHTML(htmlContent, options = {})] *)
Definition convertHTML (this : nat) (htmlContent : value) (options : value) : M string :=
  let options := or_default options (VObj []) in
  let! o := lift (resolve options) in
  do! setOptions this (pdfOptions o) in
  try_finally
    (try_catch
       (let! pdfBuffer := create env this htmlContent in
        ret pdfBuffer)
       (fun error => throw ("PDF creation failed: " +:+ error)))
    (closeBrowser this).

(** The [catch] block shared by the three conversion handlers. *)
Definition conversion_error (error : string) : M unit :=
  do! console_error ("Conversion error: " +:+ error) in
  do! res_status 500 in
  res_json (error_json error).

(** The three lines that answer with the document. *)
Definition send_pdf (pdfBuffer : string) : M unit :=
  do! res_setHeader "Content-Type" "application/pdf" in
  do! res_setHeader "Content-Disposition" content_disposition in
  res_send pdfBuffer.

(** [app.post('/api/convert/string', ...)] *)
Definition convert_string (req_body : value) : M unit :=
  try_catch
    (if nullish req_body
     then throw "Cannot destructure property 'html' of 'req.body' as it is undefined."
     else
       let html := get req_body "html" in
       let options := or_default (get req_body "options") (VObj []) in
       if falsy html then
         do! res_status 400 in
         res_json (error_json "HTML content is required")
       else
         let! converter := new_HTMLToPDFConverter in
         let! pdfBuffer := convertHTML converter html options in
         send_pdf pdfBuffer)
    conversion_error.

(** [app.post('/api/convert/url', ...)] *)
Definition convert_url (req_body : value) : M unit :=
  try_catch
    (if nullish req_body
     then throw "Cannot destructure property 'url' of 'req.body' as it is undefined."
     else
       let url := get req_body "url" in
       let options := or_default (get req_body "options") (VObj []) in
       if falsy url then
         do! res_status 400 in
         res_json (error_json "URL is required")
       else
         let! converter := new_HTMLToPDFConverter in
         let! pdfBuffer := convertHTML converter url options in
         send_pdf pdfBuffer)
    conversion_error.

(** [req.body.options ? JSON.parse(req.body.options) : {}]: an array is
    truthy, and [JSON.parse] is given its texts joined by commas. *)
Definition form_options (form : multipart) : completion value :=
  match mp_options form with
  | NoField => Normal (VObj [])
  | OneField text =>
      if String.eqb text EmptyString then Normal (VObj [])
      else JSON_parse env text
  | Repeated texts => JSON_parse env (String.concat "," texts)
  end.

(** [app.post('/api/convert/file', upload.single('htmlFile'), ...)]: the
    handler proper; [req_file] is [req.file.path] when multer stored a file. *)
Definition convert_file (req_file : option string) (form : multipart) : M unit :=
  try_catch
    (match req_file with
     | None =>
         do! res_status 400 in
         res_json (error_json "HTML file is required")
     | Some path =>
         let! options := lift (form_options form) in
         let! htmlContent := readFile path in
         let! converter := new_HTMLToPDFConverter in
         let! pdfBuffer := convertHTML converter (VStr htmlContent) options in
         do! remove path in
         send_pdf pdfBuffer
     end)
    conversion_error.

(** The disk storage of multer: [destination] and [filename]. *)
Definition destination : M string :=
  let uploadDir := dirname env +:+ "/uploads" in
  do! ensureDir uploadDir in
  ret uploadDir.

Definition filename (file : file_part) : string :=
  let uniqueSuffix := pretty (date_now env) +:+ "-" +:+ pretty (random_1e9 env) in
  fieldname file +:+ "-" +:+ uniqueSuffix +:+ ".html".

(** [upload.single(name)]: a file in another field is refused, the filter
    runs before anything is stored, and a file over the size limit is
    removed again; each refusal is an error passed to [next]. *)
Definition upload_single (name : string) (form : multipart) : M (option string) :=
  match mp_file form with
  | None => ret None
  | Some file =>
      if negb (String.eqb (fieldname file) name) then throw "Unexpected field"
      else
        let! accepted := lift (fileFilter file) in
        if accepted : bool then
          let! uploadDir := destination in
          let path := uploadDir +:+ "/" +:+ filename file in
          if (fileSize <? N.of_nat (String.length (content file)))%N
          then throw "File too large"
          else
            do! writeFile path (content file) in
            ret (Some path)
        else ret None
  end.

(** [app.use((error, req, res, next) => ...)] *)
Definition error_middleware (error : string) : M unit :=
  do! console_error ("API Error: " +:+ error) in
  do! res_status 500 in
  res_json (error_json error).

(** [app.get('/api/options', ...)] *)
Definition get_options : M unit :=
  res_json (VObj [("formats", VArr (map VStr formats));
                  ("orientations", VArr (map VStr orientations));
                  ("defaultOptions", defaultOptions)]).

(** [app.get('/health', ...)] *)
Definition get_health : M unit :=
  res_json (VObj [("status", VStr "OK");
                  ("timestamp", VStr (date_iso env));
                  ("service", VStr "HTML to PDF API")]).

(** The 404 handler. *)
Definition not_found : M unit :=
  do! res_status 404 in
  res_json (error_json "Endpoint not found").

(** A middleware followed by a handler: an error of the middleware goes to
    the error-handling middleware and the handler does not run. *)
Definition chain {A} (middleware : M A) (handler : A -> M unit) : M unit :=
  fun w =>
    match middleware w with
    | (Normal a, w1, evs1) =>
        match handler a w1 with
        | (r, w2, evs2) => (r, w2, evs1 ++ evs2)
        end
    | (Throw error, w1, evs1) =>
        match error_middleware error w1 with
        | (r, w2, evs2) => (r, w2, evs1 ++ evs2)
        end
    end.

(** The application: one request, served with a response of its own. *)
Definition app (req : request) : M unit :=
  fun w =>
    let w0 := set_res (fun _ => fresh_response) w in
    match req with
    | GetHealth => get_health w0
    | GetOptions => get_options w0
    | PostConvertString req_body => convert_string req_body w0
    | PostConvertFile form =>
        chain (upload_single "htmlFile" form) (fun req_file => convert_file req_file form) w0
    | PostConvertUrl req_body => convert_url req_body w0
    | Unrouted _ _ => not_found w0
    end.

End Routes.

End Server.

(** ** The command line converter *)

Module Cli.

(** The seven bindings of the destructuring pattern of its [convertHTML]. *)
Record RenderOptions : Type := mkRenderOptions {
  format : value;
  orientation : value;
  margin : value;
  printBackground : value;
  scale : value;
  timeout : value;
  headless : value
}.

Definition resolve (options : value) : completion RenderOptions :=
  if nullish options then Throw Server.destructure_error
  else Normal {|
    format := or_default (get options "format") (VStr "A4");
    orientation := or_default (get options "orientation") (VStr "portrait");
    margin := or_default (get options "margin") Server.default_margin;
    printBackground := or_default (get options "printBackground") (VBool true);
    scale := or_default (get options "scale") (VNum 1.0%float);
    timeout := or_default (get options "timeout") (VNum 30000%float);
    headless := or_default (get options "headless") (VStr "new")
  |}.

Definition pdfOptions (o : RenderOptions) (outputPdf : string) : PdfOptions := {|
  pdf_format := format o;
  pdf_landscape := strict_eq_str (orientation o) "landscape";
  pdf_margin := margin o;
  pdf_printBackground := printBackground o;
  pdf_scale := scale o;
  pdf_timeout := timeout o;
  pdf_headless := headless o;
  pdf_path := Some outputPdf;
  pdf_args := ["--no-sandbox"; "--disable-setuid-sandbox"]
|}.

Definition not_found_message (htmlFile : string) : string :=
  "HTML file '" +:+ htmlFile +:+ "' not found!".

Section Converter.
Context (env : Env).

Definition new_HTMLToPDFConverter : M nat := new_PuppeteerHTMLPDF.

(** [async convertHTML(htmlContent, outputPdf, options = {})] *)
Definition convertHTML (this : nat) (htmlContent : value) (outputPdf : string)
    (options : value) : M unit :=
  let options := or_default options (VObj []) in
  let! o := lift (resolve options) in
  do! setOptions this (pdfOptions o outputPdf) in
  try_finally
    (try_catch
       (do! create env this htmlContent in
        ret tt)
       (fun error =>
          do! console_error ("❌ PDF creation failed: " +:+ error) in
          throw error))
    (closeBrowser this).

(** [async convertFromFile(htmlFile, outputPdf, options = {})] *)
Definition convertFromFile (this : nat) (htmlFile outputPdf : string) (options : value)
    : M unit :=
  try_catch
    (let! found := pathExists htmlFile in
     if negb found then throw (not_found_message htmlFile)
     else
       let outputDir := path_dirname env outputPdf in
       do! ensureDir outputDir in
       do! console_log ("Converting '" +:+ htmlFile +:+ "' to '" +:+ outputPdf +:+ "'...") in
       let! htmlContent := readFile htmlFile in
       do! convertHTML this (VStr htmlContent) outputPdf options in
       console_log ("✅ Successfully converted to '" +:+ outputPdf +:+ "'"))
    (fun error =>
       do! console_error ("❌ Error converting file: " +:+ error) in
       throw error).

(** [async convertFromURL(url, outputPdf, options = {})] *)
Definition convertFromURL (this : nat) (url outputPdf : string) (options : value)
    : M unit :=
  try_catch
    (let outputDir := path_dirname env outputPdf in
     do! ensureDir outputDir in
     do! console_log ("Converting URL '" +:+ url +:+ "' to '" +:+ outputPdf +:+ "'...") in
     do! convertHTML this (VStr url) outputPdf options in
     console_log ("✅ Successfully converted to '" +:+ outputPdf +:+ "'"))
    (fun error =>
       do! console_error ("❌ Error converting URL: " +:+ error) in
       throw error).

(** [async convertFromString(htmlString, outputPdf, options = {})] *)
Definition convertFromString (this : nat) (htmlString outputPdf : string) (options : value)
    : M unit :=
  try_catch
    (let outputDir := path_dirname env outputPdf in
     do! ensureDir outputDir in
     do! console_log ("Converting HTML string to '" +:+ outputPdf +:+ "'...") in
     do! convertHTML this (VStr htmlString) outputPdf options in
     console_log ("✅ Successfully converted to '" +:+ outputPdf +:+ "'"))
    (fun error =>
       do! console_error ("❌ Error converting string: " +:+ error) in
       throw error).

(** [async close()] *)
Definition close (this : nat) : M unit := closeBrowser this.

End Converter.

End Cli.

(** ** The [convert] command of the command line converter *)

Module CliMain.

(** [s.split(',')]: the pieces between the commas, one more than there are
    commas. *)
Fixpoint split_comma (s : string) : list string :=
  match s with
  | EmptyString => [EmptyString]
  | String c rest =>
      if Ascii.eqb c ","%char then EmptyString :: split_comma rest
      else
        match split_comma rest with
        | piece :: pieces => String c piece :: pieces
        | [] => [String c EmptyString]
        end
  end.

(** [x || d] where [x] is a string or [undefined]. *)
Definition or_string (x : option string) (d : string) : string :=
  match x with
  | Some s => if String.eqb s EmptyString then d else s
  | None => d
  end.

(** Truthiness of an option value that is a string or [undefined]. *)
Definition given (x : option string) : bool :=
  match x with
  | Some s => negb (String.eqb s EmptyString)
  | None => false
  end.

(** The options object commander hands to the action: [--input], [--url],
    [--string] and [--output] may be absent, the others have defaults. *)
Record Options : Type := mkOptions {
  input : option string;
  url : option string;
  string_ : option string;
  output : option string;
  format : string;
  orientation : string;
  margin : string;
  printBackground : bool;
  scale : string;
  timeout : string
}.

(** The defaults declared with [.option(...)]. *)
Definition defaults : Options := {|
  input := None;
  url := None;
  string_ := None;
  output := None;
  format := "A4";
  orientation := "portrait";
  margin := "20,20,20,20";
  printBackground := true;
  scale := "1.0";
  timeout := "30000"
|}.

(** How the process run by the action ends: [process.exit(code)], or the
    action returns (or throws). *)
Inductive ending : Type :=
| Exit (code : N)
| Returned (r : completion unit).

(** The built-in functions the action uses, taken as they are. *)
Record Builtins : Type := mkBuiltins {
  trim : string -> string;
  parseFloat : string -> float;
  parseInt : string -> float
}.

Section Action.
Context (env : Env) (js : Builtins).

(** [options.margin.split(',').map(m => m.trim() + 'px')] *)
Definition margins (options : Options) : list string :=
  map (fun m => trim js m +:+ "px") (split_comma (margin options)).

(** [{ top: margins[0] || '20px', bottom: margins[1] || '20px', ... }] *)
Definition margin_of (options : Options) : value :=
  let margins := margins options in
  VObj [("top", VStr (or_string (margins !! 0) "20px"));
        ("bottom", VStr (or_string (margins !! 1) "20px"));
        ("left", VStr (or_string (margins !! 2) "20px"));
        ("right", VStr (or_string (margins !! 3) "20px"))].

(** [const pdfOptions = { format: options.format, ... }] *)
Definition pdfOptions (options : Options) : value :=
  VObj [("format", VStr (format options));
        ("orientation", VStr (orientation options));
        ("margin", margin_of options);
        ("printBackground", VBool (printBackground options));
        ("scale", VNum (parseFloat js (scale options)));
        ("timeout", VNum (parseInt js (timeout options)))].

(** The [try] block: the conversion chosen by the first source given. *)
Definition convert (converter : nat) (options : Options) : M unit :=
  let outputPdf := default EmptyString (output options) in
  if given (input options) then
    Cli.convertFromFile env converter (default EmptyString (input options)) outputPdf
      (pdfOptions options)
  else if given (url options) then
    Cli.convertFromURL env converter (default EmptyString (url options)) outputPdf
      (pdfOptions options)
  else if given (string_ options) then
    Cli.convertFromString env converter (default EmptyString (string_ options)) outputPdf
      (pdfOptions options)
  else ret tt.

(** [.action(async (options) => { ... })]: in the [catch] block
    [process.exit(1)] ends the process, so that the [finally] block runs
    only when the conversion went through. *)
Definition action (options : Options) (w : world) : ending * world * list event :=
  if negb (given (output options)) then
    (Exit 1, w, [EvConsoleError "❌ Output file path is required!"])
  else if negb (given (input options)) && negb (given (url options))
          && negb (given (string_ options)) then
    (Exit 1, w, [EvConsoleError "❌ Input source is required! Use -i, -u, or -s option."])
  else
    match Cli.new_HTMLToPDFConverter w with
    | (Throw error, w1, evs1) => (Returned (Throw error), w1, evs1)
    | (Normal converter, w1, evs1) =>
        match convert converter options w1 with
        | (Normal _, w2, evs2) =>
            match Cli.close converter w2 with
            | (r, w3, evs3) => (Returned r, w3, evs1 ++ evs2 ++ evs3)
            end
        | (Throw error, w2, evs2) =>
            (Exit 1, w2,
             evs1 ++ evs2 ++ [EvConsoleError ("❌ Conversion failed: " +:+ error)])
        end
    end.

End Action.

End CliMain.

(** ** Vocabulary of the statements *)

(** A field is specified by the caller when reading it yields a value; a
    field that is absent reads as [undefined], and so does one bound to
    [undefined], which no JSON document can hold. *)
Definition specified (options : value) (k : string) : Prop :=
  get options k <> VUndefined.

(** [x] is what resolution makes of field [k], whose default is [d]. *)
Definition field_resolved (options : value) (k : string) (d x : value) : Prop :=
  (specified options k -> x = get options k) /\
  (~ specified options k -> x = d).

Definition sides : list string := ["top"; "bottom"; "left"; "right"].

(** Side-by-side merging of a partial margin, as a property of a resolver. *)
Definition margin_merged_sidewise (resolver : value -> completion Server.RenderOptions) : Prop :=
  forall (props m : list (string * value)) (o : Server.RenderOptions) (side : string),
    own_prop props "margin" = VObj m ->
    resolver (VObj props) = Normal o ->
    In side sides ->
    get (VObj m) side = VUndefined ->
    get (Server.margin o) side = VStr "20px".

(** No browser is left running by a run from [w] to [w']: an engine whose
    browser is open in [w'] is an engine of [w], as it was. *)
Definition closed_after (w w' : world) : Prop :=
  forall (h : nat) (e : engine),
    engines w' !! h = Some e -> eng_browser_open e = true -> engines w !! h = Some e.

(** The answer that carries the document. *)
Definition pdf_response (r : response) (pdf : string) : Prop :=
  status r = 200%N /\
  header "Content-Type" (headers r) = Some "application/pdf" /\
  header "Content-Disposition" (headers r) = Some Server.content_disposition /\
  res_body r = BodyBuffer pdf.

(** The structured error answer [{ error: msg }] with status [code]. *)
Definition error_response (r : response) (code : N) (msg : string) : Prop :=
  status r = code /\
  header "Content-Type" (headers r) = Some "application/json; charset=utf-8" /\
  res_body r = BodyJson (error_json msg).

Definition is_conversion (req : Server.request) : bool :=
  match req with
  | Server.PostConvertString _ | Server.PostConvertFile _ | Server.PostConvertUrl _ => true
  | _ => false
  end.

(** The state in which a complete [convertHTML] leaves the engine it used:
    the options it set, and no browser. *)
Definition engine_done (po : PdfOptions) (e : engine) : engine := mkEngine (Some po) false.

(** What the server's [convertHTML] makes of the completion of [create]. *)
Definition rethrown (out : outcome) : completion string :=
  match out with
  | Rendered pdf => Normal pdf
  | EngineError msg | TimedOut msg => Throw ("PDF creation failed: " +:+ msg)
  end.




(** An upload that the filter refuses is answered with 400. *)
Definition refused_upload_answered_400 (env : Env) : Prop :=
  forall (form : Server.multipart) (file : Server.file_part) (w : world),
    Server.mp_file form = Some file ->
    String.eqb (Server.mimetype file) "text/html" = false ->
    endsWith (Server.originalname file) ".html" = false ->
    status (res (world_of (Server.app env (Server.PostConvertFile form) w))) = 400%N.

(** The uploaded file is gone once the answer is sent, whatever the render
    did. *)
Definition upload_removed_whatever_the_outcome (env : Env) : Prop :=
  forall (form : Server.multipart) (w : world) (path : string),
    In (EvWriteFile path) (events_of (Server.app env (Server.PostConvertFile form) w)) ->
    In (EvReadFile path) (events_of (Server.app env (Server.PostConvertFile form) w)) ->
    fs (world_of (Server.app env (Server.PostConvertFile form) w)) !! path = None.

(** [closeBrowser] on engine [h]. *)
Definition closes (h : nat) (e : event) : bool :=
  match e with
  | EvCloseBrowser h' => Nat.eqb h h'
  | _ => false
  end.

(** In a trace, every [create] on an engine is followed by a [closeBrowser]
    on that engine. *)
Fixpoint every_create_closed (evs : list event) : bool :=
  match evs with
  | [] => true
  | EvCreate h _ :: rest => existsb (closes h) rest && every_create_closed rest
  | _ :: rest => every_create_closed rest
  end.

(** A run from [w] tears down every render session it opened: no browser
    is left running that was not running before, each [create] of the trace
    has its [closeBrowser] after it, and an engine on which [create] was
    called ends with no browser. *)
Definition torn_down {A : Type} (w : world) (r : completion A * world * list event) : Prop :=
  closed_after w (world_of r) /\
  every_create_closed (events_of r) = true /\
  forall (h : nat) (c : value) (e : engine),
    In (EvCreate h c) (events_of r) ->
    engines (world_of r) !! h = Some e ->
    eng_browser_open e = false.

(** ** Explicit runs, to state what the handlers come to *)

Definition answer_json (code : N) (msg : string) : response :=
  mkResponse code [("Content-Type", "application/json; charset=utf-8")]
    (BodyJson (error_json msg)).

Definition answer_pdf (pdf : string) : response :=
  mkResponse 200
    [("Content-Disposition", Server.content_disposition); ("Content-Type", "application/pdf")]
    (BodyBuffer pdf).

Definition answered (r : response) (w : world) : world := set_res (fun _ => r) w.

Definition with_engine (e : engine) (w : world) : world :=
  set_engines (fun es => es ++ [e]) w.

(** What a conversion of [c] under [options] on a converter of its own
    comes to, once the catch block and the answer are accounted for;
    [cleanup] is the uploaded file that the file route removes. *)
Definition conversion_run (env : Env) (c options : value) (cleanup : option string)
    (w : world) : completion unit * world * list event :=
  match Server.resolve (or_default options (VObj [])) with
  | Throw msg =>
      (Normal tt, answered (answer_json 500 msg) (with_engine (mkEngine None false) w),
       [EvConsoleError ("Conversion error: " +:+ msg)])
  | Normal o =>
      let h := length (engines w) in
      let po := Server.pdfOptions o in
      let w1 := with_engine (mkEngine (Some po) false) w in
      match render env (Some po) c with
      | Rendered pdf =>
          match cleanup with
          | Some path =>
              (Normal tt, answered (answer_pdf pdf) (set_fs (delete path) w1),
               [EvSetOptions h po; EvCreate h c; EvCloseBrowser h; EvRemove path])
          | None =>
              (Normal tt, answered (answer_pdf pdf) w1,
               [EvSetOptions h po; EvCreate h c; EvCloseBrowser h])
          end
      | EngineError msg | TimedOut msg =>
          (Normal tt, answered (answer_json 500 ("PDF creation failed: " +:+ msg)) w1,
           [EvSetOptions h po; EvCreate h c; EvCloseBrowser h;
            EvConsoleError ("Conversion error: PDF creation failed: " +:+ msg)])
      end
  end.

Definition upload_dir (env : Env) : string := dirname env +:+ "/uploads".

Definition upload_path (env : Env) (file : Server.file_part) : string :=
  upload_dir env +:+ "/" +:+ Server.filename env file.

Definition accepted (file : Server.file_part) : bool :=
  String.eqb (Server.mimetype file) "text/html" || endsWith (Server.originalname file) ".html".

(** The answer of the error-handling middleware. *)
Definition refused (msg : string) (pre : list event) (w : world)
    : completion unit * world * list event :=
  (Normal tt, answered (answer_json 500 msg) w, pre ++ [EvConsoleError ("API Error: " +:+ msg)]).

Definition after (pre : list event) (r : completion unit * world * list event)
    : completion unit * world * list event :=
  (result_of r, world_of r, pre ++ events_of r).



(** ** Sample inputs *)

Module Samples.

Definition parse (text : string) : completion value :=
  if String.eqb text "{}" then Normal (VObj [])
  else if String.eqb text "null" then Normal VNull
  else Throw "Unexpected token in JSON".

(** An environment whose engine answers every [create] with [out]. *)
Definition env (out : outcome) : Env := {|
  dirname := "/srv/app";
  date_now := 1754234431000;
  date_iso := "2025-08-03T15:20:31.000Z";
  random_1e9 := 123456789;
  JSON_parse := parse;
  path_dirname := fun _ => "/srv/app/uploads";
  render := fun _ _ => out
|}.

Definition world0 : world := mkWorld ∅ [] fresh_response.

Definition page : string := "<html><body><h1>Hi</h1></body></html>".

Definition upload_html : Server.multipart :=
  Server.mkMultipart
    (Some (Server.mkFilePart "htmlFile" "test.html" "text/html" page))
    (Server.OneField "{}").

Definition upload_txt : Server.multipart :=
  Server.mkMultipart
    (Some (Server.mkFilePart "htmlFile" "notes.txt" "text/plain" "hello"))
    Server.NoField.

Definition stored_path : string :=
  "/srv/app/uploads/htmlFile-1754234431000-123456789.html".

Definition partial_margin : value :=
  VObj [("margin", VObj [("top", VStr "10px")])].

End Samples.

(** ** Vocabulary of the further properties *)

(** The option fields that [convertHTML] reads in the server. *)
Definition option_keys : list string :=
  ["format"; "orientation"; "margin"; "printBackground"; "scale"; "timeout"].

(** More sample inputs. *)
Module MoreSamples.

Definition letter : list (string * value) := [("format", VStr "Letter")].

Definition letter_with_extras : list (string * value) :=
  [("path", VStr "/etc/cron.d/job"); ("headless", VBool false);
   ("args", VArr [VStr "--remote-debugging-port=9222"]); ("format", VStr "Letter")].

Definition upload_bad_options : Server.multipart :=
  Server.mkMultipart
    (Some (Server.mkFilePart "htmlFile" "test.html" "text/html" Samples.page))
    (Server.OneField "{format:").

(** The [options] field sent twice, each half no JSON by itself. *)
Definition upload_split_options : Server.multipart :=
  Server.mkMultipart
    (Some (Server.mkFilePart "htmlFile" "test.html" "text/html" Samples.page))
    (Server.Repeated ["{"; "}"]).

End MoreSamples.

(** Number of commas of a string. *)
Fixpoint commas (s : string) : nat :=
  match s with
  | EmptyString => 0
  | String c rest => (if Ascii.eqb c ","%char then 1 else 0) + commas rest
  end.

(** The side that piece [i] of the [--margin] value gives. *)
Definition margin_side (js : CliMain.Builtins) (options : CliMain.Options) (i : nat) : string :=
  match CliMain.split_comma (CliMain.margin options) !! i with
  | Some piece => CliMain.trim js piece +:+ "px"
  | None => "20px"
  end.

(** The options with the sources after [--input] dropped, and with
    [--string] dropped. *)
Definition only_input (options : CliMain.Options) : CliMain.Options :=
  CliMain.mkOptions (CliMain.input options) None None (CliMain.output options)
    (CliMain.format options) (CliMain.orientation options) (CliMain.margin options)
    (CliMain.printBackground options) (CliMain.scale options) (CliMain.timeout options).

Definition without_string (options : CliMain.Options) : CliMain.Options :=
  CliMain.mkOptions (CliMain.input options) (CliMain.url options) None
    (CliMain.output options)
    (CliMain.format options) (CliMain.orientation options) (CliMain.margin options)
    (CliMain.printBackground options) (CliMain.scale options) (CliMain.timeout options).

(** The options the engine is given by the [convert] command. *)
Definition engine_options (js : CliMain.Builtins) (options : CliMain.Options)
    (outputPdf : string) : PdfOptions := {|
  pdf_format := VStr (CliMain.format options);
  pdf_landscape := String.eqb (CliMain.orientation options) "landscape";
  pdf_margin :=
    VObj [("top", VStr (margin_side js options 0));
          ("bottom", VStr (margin_side js options 1));
          ("left", VStr (margin_side js options 2));
          ("right", VStr (margin_side js options 3))];
  pdf_printBackground := VBool (CliMain.printBackground options);
  pdf_scale := VNum (CliMain.parseFloat js (CliMain.scale options));
  pdf_timeout := VNum (CliMain.parseInt js (CliMain.timeout options));
  pdf_headless := VStr "new";
  pdf_path := Some outputPdf;
  pdf_args := ["--no-sandbox"; "--disable-setuid-sandbox"]
|}.

Module CliSamples.

(** Built-ins that tell enough for the samples. *)
Definition js : CliMain.Builtins := {|
  CliMain.trim := fun s => if String.eqb s " 30" then "30" else s;
  CliMain.parseFloat := fun s => if String.eqb s "0.5" then 0.5%float else 1.0%float;
  CliMain.parseInt := fun _ => 30000%float
|}.

Definition world1 : world :=
  mkWorld {["page.html" := Samples.page]} [mkEngine None false] fresh_response.

Definition from_url : CliMain.Options :=
  CliMain.mkOptions None (Some "https://example.com") (Some "<p>ignored</p>")
    (Some "out.pdf") "Letter" "landscape" "10, 30" true "0.5" "30000".

Definition from_file : CliMain.Options :=
  CliMain.mkOptions (Some "page.html") (Some "https://example.com") None
    (Some "out.pdf") "A4" "portrait" "20,20,20,20" true "1.0" "30000".

End CliSamples.

(** No [-] in a string. *)
Fixpoint dash_free (s : string) : bool :=
  match s with
  | EmptyString => true
  | String c rest => negb (Ascii.eqb c "-"%char) && dash_free rest
  end.

(** ** Properties *)

(** *** The model on sample inputs *)

Example endsWith_samples :
  endsWith "test.html" ".html" = true /\
  endsWith "notes.txt" ".html" = false /\
  endsWith "html" ".html" = false /\
  endsWith ".html" ".html" = true.
Proof. repeat split. Qed.

Example falsy_samples :
  falsy (VStr EmptyString) = true /\
  falsy VUndefined = true /\
  falsy (VNum 0%float) = true /\
  falsy (VStr "<p>hi</p>") = false /\
  falsy (VObj []) = false.
Proof. repeat split. Qed.

Example stored_path_sample :
  upload_path (Samples.env (Rendered "%PDF-1.7"))
    (Server.mkFilePart "htmlFile" "test.html" "text/html" Samples.page)
  = Samples.stored_path.
Proof. reflexivity. Qed.

Example string_conversion_sample :
  let r := Server.app (Samples.env (Rendered "%PDF-1.7"))
             (Server.PostConvertString
                (VObj [("html", VStr Samples.page);
                       ("options", VObj [("orientation", VStr "landscape")])]))
             Samples.world0 in
  result_of r = Normal tt /\
  res (world_of r) = answer_pdf "%PDF-1.7" /\
  engines (world_of r)
  = [mkEngine
       (Some (mkPdfOptions (VStr "A4") true Server.default_margin (VBool true)
                (VNum 1.0%float) (VNum 30000%float) (VStr "new") None
                ["--no-sandbox"; "--disable-setuid-sandbox"]))
       false] /\
  map (fun e => match e with
                | EvSetOptions _ _ => "setOptions"
                | EvCreate _ _ => "create"
                | EvCloseBrowser _ => "closeBrowser"
                | _ => "other"
                end) (events_of r)
  = ["setOptions"; "create"; "closeBrowser"].
Proof. cbv zeta. repeat split. Qed.

Example file_conversion_sample :
  let r := Server.app (Samples.env (Rendered "%PDF-1.7"))
             (Server.PostConvertFile Samples.upload_html) Samples.world0 in
  res (world_of r) = answer_pdf "%PDF-1.7" /\
  fs (world_of r) !! Samples.stored_path = None /\
  renders (events_of r) = 1 /\
  last (events_of r) = Some (EvRemove Samples.stored_path).
Proof. cbv zeta. repeat split. Qed.

Example cli_conversion_sample :
  let env := Samples.env (Rendered "%PDF-1.7") in
  let w := mkWorld {["page.html" := Samples.page]} [mkEngine None false] fresh_response in
  let r := Cli.convertFromFile env 0 "page.html" "/srv/app/uploads/page.pdf"
             (VObj [("format", VStr "Letter")]) w in
  result_of r = Normal tt /\
  fs (world_of r) !! "/srv/app/uploads/page.pdf" = Some "%PDF-1.7" /\
  (eng_browser_open <$> engines (world_of r) !! 0) = Some false.
Proof. cbv zeta. repeat split. Qed.

(** *** Option resolution *)

Lemma or_default_specified (v d : value) : v <> VUndefined -> or_default v d = v.
Proof. destruct v; simpl; congruence. Qed.

Lemma or_default_unspecified (v d : value) : v = VUndefined -> or_default v d = d.
Proof. intros ->. reflexivity. Qed.

Lemma field_resolved_or_default (options : value) (k : string) (d : value) :
  field_resolved options k d (or_default (get options k) d).
Proof.
  unfold field_resolved, specified. split.
  - apply or_default_specified.
  - intros H. apply or_default_unspecified.
    destruct (get options k); try reflexivity; exfalso; apply H; discriminate.
Qed.

(** An absent key reads as [undefined]; in a parsed JSON object a present
    key never does. *)
Lemma own_prop_absent (props : list (string * value)) (k : string) :
  has_prop props k = false -> own_prop props k = VUndefined.
Proof.
  induction props as [|[k' v] rest IH]; simpl; [reflexivity|].
  destruct (String.eqb k' k); simpl; [discriminate | exact IH].
Qed.

Lemma own_prop_json (props : list (string * value)) (k : string) :
  json_props props = true -> has_prop props k = true -> own_prop props k <> VUndefined.
Proof.
  induction props as [|[k' v] rest IH]; simpl; [discriminate|].
  intros Hj Hp. apply andb_prop in Hj as [Hv Hrest].
  destruct (String.eqb k' k); simpl in *.
  - destruct v; congruence.
  - auto.
Qed.

(** C1. Resolving an options object never fails and yields a complete
    record: each of [format], [orientation], [margin], [printBackground],
    [scale] and [timeout] is the caller's value when the caller specified
    the field, untouched, and the documented default (A4, portrait, 20px on
    the four sides, true, 1.0, 30000) when the caller did not. *)
Theorem resolve_complete (props : list (string * value)) :
  exists o : Server.RenderOptions,
    Server.resolve (VObj props) = Normal o /\
    field_resolved (VObj props) "format" (VStr "A4") (Server.format o) /\
    field_resolved (VObj props) "orientation" (VStr "portrait") (Server.orientation o) /\
    field_resolved (VObj props) "margin"
      (VObj [("top", VStr "20px"); ("bottom", VStr "20px");
             ("left", VStr "20px"); ("right", VStr "20px")]) (Server.margin o) /\
    field_resolved (VObj props) "printBackground" (VBool true) (Server.printBackground o) /\
    field_resolved (VObj props) "scale" (VNum 1.0%float) (Server.scale o) /\
    field_resolved (VObj props) "timeout" (VNum 30000%float) (Server.timeout o).
Proof.
  unfold Server.resolve. simpl nullish. cbv iota.
  eexists. split; [reflexivity|].
  cbn [Server.format Server.orientation Server.margin Server.printBackground
       Server.scale Server.timeout].
  repeat split; apply field_resolved_or_default.
Qed.

(** The margin the caller gives replaces the default margin as a whole:
    with [{ margin: { top: '10px' } }] the resolved margin has no [bottom]. *)
Lemma partial_margin_not_merged :
  ~ margin_merged_sidewise Server.resolve /\
  exists o : Server.RenderOptions,
    Server.resolve Samples.partial_margin = Normal o /\
    get (Server.margin o) "top" = VStr "10px" /\
    get (Server.margin o) "bottom" = VUndefined.
Proof.
  split; [|eexists; repeat split].
  intros H.
  specialize (H [("margin", VObj [("top", VStr "10px")])]
                [("top", VStr "10px")]
                (Server.mkRenderOptions (VStr "A4") (VStr "portrait")
                   (VObj [("top", VStr "10px")]) (VBool true)
                   (VNum 1.0%float) (VNum 30000%float))
                "bottom" eq_refl eq_refl).
  simpl in H.
  assert (Hside : VUndefined = VStr "20px") by (apply H; auto).
  discriminate Hside.
Qed.

(** C7, as the code has it. The margin is resolved as one value: a margin
    given by the caller reaches the engine as it is, so a side it leaves out
    stays absent there, and the four 20px sides are those of the default,
    used only when the caller gives no margin at all. *)
Theorem margin_resolved_as_a_whole (props : list (string * value)) :
  exists o : Server.RenderOptions,
    Server.resolve (VObj props) = Normal o /\
    pdf_margin (Server.pdfOptions o) = Server.margin o /\
    (specified (VObj props) "margin" ->
       Server.margin o = own_prop props "margin" /\
       forall side : string,
         get (Server.margin o) side = get (own_prop props "margin") side) /\
    (~ specified (VObj props) "margin" ->
       forall side : string, In side sides -> get (Server.margin o) side = VStr "20px").
Proof.
  unfold Server.resolve. simpl nullish. cbv iota.
  eexists. split; [reflexivity|].
  cbn [Server.margin Server.pdfOptions pdf_margin].
  destruct (field_resolved_or_default (VObj props) "margin" Server.default_margin)
    as [Hspec Hunspec].
  split; [reflexivity|]. split.
  - intros Hs. rewrite (Hspec Hs). simpl get at 1 3. split; [reflexivity|]. reflexivity.
  - intros Hn side Hside. rewrite (Hunspec Hn).
    simpl in Hside.
    destruct Hside as [<-|[<-|[<-|[<-|[]]]]]; reflexivity.
Qed.

(** *** Runs of [convertHTML] *)

Lemma alter_set_open_close (po : PdfOptions) (h : nat) (es : list engine) :
  alter (fun e => mkEngine (eng_options e) false) h
    (alter (fun e => mkEngine (eng_options e) true) h
       (alter (fun e => mkEngine (Some po) (eng_browser_open e)) h es))
  = alter (engine_done po) h es.
Proof.
  rewrite !list_alter_alter_eq. apply list_alter_ext; [|reflexivity].
  intros x _. reflexivity.
Qed.

Lemma alter_done_new (po : PdfOptions) (es : list engine) (e : engine) :
  alter (engine_done po) (length es) (es ++ [e]) = es ++ [mkEngine (Some po) false].
Proof.
  induction es as [|x es IH]; simpl; [reflexivity|].
  f_equal. exact IH.
Qed.

Lemma lookup_new (es : list engine) (e : engine) : (es ++ [e]) !! length es = Some e.
Proof. induction es as [|x es IH]; simpl; [reflexivity | exact IH]. Qed.

(** Options that are [null] make the destructuring throw; anything else,
    [undefined] included, resolves. *)
Lemma server_resolve_cases (options : value) :
  (options = VNull /\
   Server.resolve (or_default options (VObj [])) = Throw Server.destructure_error) \/
  (options <> VNull /\
   exists o, Server.resolve (or_default options (VObj [])) = Normal o).
Proof.
  destruct options; simpl; try (right; split; [discriminate | eexists; reflexivity]).
  left. split; reflexivity.
Qed.

Lemma cli_resolve_cases (options : value) :
  (options = VNull /\
   Cli.resolve (or_default options (VObj [])) = Throw Server.destructure_error) \/
  (options <> VNull /\
   exists o, Cli.resolve (or_default options (VObj [])) = Normal o).
Proof.
  destruct options; simpl; try (right; split; [discriminate | eexists; reflexivity]).
  left. split; reflexivity.
Qed.

Lemma server_convertHTML_throws (env : Env) (this : nat) (c options : value) (w : world)
    (msg : string) :
  Server.resolve (or_default options (VObj [])) = Throw msg ->
  Server.convertHTML env this c options w = (Throw msg, w, []).
Proof.
  intros Hres. unfold Server.convertHTML, bind at 1, lift. rewrite Hres. reflexivity.
Qed.

Lemma server_convertHTML_run (env : Env) (this : nat) (c options : value) (w : world)
    (o : Server.RenderOptions) :
  Server.resolve (or_default options (VObj [])) = Normal o ->
  Server.convertHTML env this c options w =
    (rethrown (render env ((fun _ => Server.pdfOptions o) <$> engines w !! this) c),
     set_engines (alter (engine_done (Server.pdfOptions o)) this) w,
     [EvSetOptions this (Server.pdfOptions o); EvCreate this c; EvCloseBrowser this]).
Proof.
  intros Hres.
  unfold Server.convertHTML, bind at 1, lift. rewrite Hres.
  unfold bind, setOptions, try_finally, try_catch, closeBrowser, create, ret, throw.
  cbn -[Server.pdfOptions alter lookup].
  rewrite list_lookup_alter_eq.
  unfold set_engines. cbn -[Server.pdfOptions alter lookup].
  rewrite <- (alter_set_open_close (Server.pdfOptions o) this (engines w)).
  destruct (engines w !! this) as [e|]; cbn -[alter];
    destruct (render env _ c); reflexivity.
Qed.

Lemma cli_convertHTML_throws (env : Env) (this : nat) (c : value) (outputPdf : string)
    (options : value) (w : world) (msg : string) :
  Cli.resolve (or_default options (VObj [])) = Throw msg ->
  Cli.convertHTML env this c outputPdf options w = (Throw msg, w, []).
Proof.
  intros Hres. unfold Cli.convertHTML, bind at 1, lift. rewrite Hres. reflexivity.
Qed.

(** *** Runs of the request handlers *)

(** A new converter, one [convertHTML] on it, and what follows. *)
Lemma server_render_then {A : Type} (env : Env) (c options : value) (k : string -> M A)
    (w : world) :
  bind Server.new_HTMLToPDFConverter
    (fun converter => bind (Server.convertHTML env converter c options) k) w =
  match Server.resolve (or_default options (VObj [])) with
  | Throw msg => (Throw msg, set_engines (fun es => es ++ [mkEngine None false]) w, [])
  | Normal o =>
      let h := length (engines w) in
      let po := Server.pdfOptions o in
      let w1 := set_engines (fun es => es ++ [mkEngine (Some po) false]) w in
      let evs := [EvSetOptions h po; EvCreate h c; EvCloseBrowser h] in
      match render env (Some po) c with
      | Rendered pdf => match k pdf w1 with (r, w2, evs2) => (r, w2, evs ++ evs2) end
      | EngineError msg | TimedOut msg =>
          (Throw ("PDF creation failed: " +:+ msg), w1, evs)
      end
  end.
Proof.
  unfold bind at 1, Server.new_HTMLToPDFConverter, new_PuppeteerHTMLPDF.
  unfold bind.
  destruct (Server.resolve (or_default options (VObj []))) as [o|msg] eqn:Hres.
  - rewrite (server_convertHTML_run _ _ _ _ _ _ Hres).
    cbn [engines set_engines]. rewrite lookup_new. cbn [fmap option_fmap option_map].
    unfold set_engines. cbn [engines fs res].
    rewrite alter_done_new.
    destruct (render env _ c); cbn [rethrown]; try reflexivity.
    destruct (k pdf _) as [[r w2] evs2]. reflexivity.
  - rewrite (server_convertHTML_throws _ _ _ _ _ _ Hres). reflexivity.
Qed.

Lemma app_string_run (env : Env) (req_body : value) (w : world) :
  Server.app env (Server.PostConvertString req_body) w =
  if nullish req_body then
    let msg := "Cannot destructure property 'html' of 'req.body' as it is undefined." in
    (Normal tt, answered (answer_json 500 msg) w, [EvConsoleError ("Conversion error: " +:+ msg)])
  else if falsy (get req_body "html") then
    (Normal tt, answered (answer_json 400 "HTML content is required") w, [])
  else
    conversion_run env (get req_body "html") (or_default (get req_body "options") (VObj []))
      None w.
Proof.
  unfold Server.app, Server.convert_string, try_catch.
  destruct (nullish req_body); [reflexivity|].
  destruct (falsy (get req_body "html")); [reflexivity|].
  rewrite server_render_then. unfold conversion_run.
  destruct (Server.resolve _) as [o|msg]; [|reflexivity].
  cbv zeta. destruct (render env _ _); reflexivity.
Qed.

Lemma app_url_run (env : Env) (req_body : value) (w : world) :
  Server.app env (Server.PostConvertUrl req_body) w =
  if nullish req_body then
    let msg := "Cannot destructure property 'url' of 'req.body' as it is undefined." in
    (Normal tt, answered (answer_json 500 msg) w, [EvConsoleError ("Conversion error: " +:+ msg)])
  else if falsy (get req_body "url") then
    (Normal tt, answered (answer_json 400 "URL is required") w, [])
  else
    conversion_run env (get req_body "url") (or_default (get req_body "options") (VObj []))
      None w.
Proof.
  unfold Server.app, Server.convert_url, try_catch.
  destruct (nullish req_body); [reflexivity|].
  destruct (falsy (get req_body "url")); [reflexivity|].
  rewrite server_render_then. unfold conversion_run.
  destruct (Server.resolve _) as [o|msg]; [|reflexivity].
  cbv zeta. destruct (render env _ _); reflexivity.
Qed.

Lemma app_file_run (env : Env) (form : Server.multipart) (w : world) :
  Server.app env (Server.PostConvertFile form) w =
  match Server.mp_file form with
  | None => (Normal tt, answered (answer_json 400 "HTML file is required") w, [])
  | Some file =>
      if negb (String.eqb (Server.fieldname file) "htmlFile") then
        refused "Unexpected field" [] w
      else if negb (accepted file) then
        refused "Only HTML files are allowed!" [] w
      else if (Server.fileSize <? N.of_nat (String.length (Server.content file)))%N then
        refused "File too large" [EvEnsureDir (upload_dir env)] w
      else
        let path := upload_path env file in
        let w1 := set_fs (insert path (Server.content file)) w in
        let stored := [EvEnsureDir (upload_dir env); EvWriteFile path] in
        match Server.form_options env form with
        | Throw msg =>
            (Normal tt, answered (answer_json 500 msg) w1,
             stored ++ [EvConsoleError ("Conversion error: " +:+ msg)])
        | Normal options =>
            after (stored ++ [EvReadFile path])
              (conversion_run env (VStr (Server.content file)) options (Some path) w1)
        end
  end.
Proof.
  unfold Server.app, Server.chain, Server.upload_single.
  destruct (Server.mp_file form) as [file|]; [|reflexivity].
  destruct (negb (String.eqb (Server.fieldname file) "htmlFile")); [reflexivity|].
  unfold bind at 1, lift, Server.fileFilter. fold (accepted file).
  destruct (accepted file); [|reflexivity]. cbn [negb].
  unfold bind at 1, Server.destination. unfold bind at 1, ensureDir, emit, ret.
  fold (upload_dir env). fold (upload_path env file).
  destruct (_ <? _)%N; [reflexivity|].
  unfold bind at 1, writeFile. cbn [app].
  unfold Server.convert_file, try_catch.
  unfold bind at 1, lift.
  destruct (Server.form_options env form) as [options|msg]; [|reflexivity].
  unfold bind at 1, readFile. cbn [fs set_fs]. rewrite lookup_insert_eq.
  rewrite server_render_then. unfold conversion_run, after.
  destruct (Server.resolve _) as [o|msg]; [|reflexivity].
  cbv zeta. destruct (render env _ _); reflexivity.
Qed.

Lemma cli_convertHTML_run (env : Env) (this : nat) (c : value) (outputPdf : string)
    (options : value) (w : world) (o : Cli.RenderOptions) :
  Cli.resolve (or_default options (VObj [])) = Normal o ->
  Cli.convertHTML env this c outputPdf options w =
    let po := Cli.pdfOptions o outputPdf in
    let w' := set_engines (alter (engine_done po) this) w in
    match render env ((fun _ => po) <$> engines w !! this) c with
    | Rendered pdf =>
        match engines w !! this with
        | Some _ =>
            (Normal tt, set_fs (insert outputPdf pdf) w',
             [EvSetOptions this po; EvCreate this c; EvWriteFile outputPdf;
              EvCloseBrowser this])
        | None =>
            (Normal tt, w', [EvSetOptions this po; EvCreate this c; EvCloseBrowser this])
        end
    | EngineError msg | TimedOut msg =>
        (Throw msg, w',
         [EvSetOptions this po; EvCreate this c;
          EvConsoleError ("❌ PDF creation failed: " +:+ msg); EvCloseBrowser this])
    end.
Proof.
  intros Hres.
  unfold Cli.convertHTML, bind at 1, lift. rewrite Hres.
  unfold bind, setOptions, try_finally, try_catch, closeBrowser, create, ret, throw,
    console_error, emit.
  cbn -[Cli.pdfOptions alter lookup insert].
  rewrite list_lookup_alter_eq.
  unfold set_engines, set_fs. cbn -[Cli.pdfOptions alter lookup insert].
  rewrite <- (alter_set_open_close (Cli.pdfOptions o outputPdf) this (engines w)).
  destruct (engines w !! this) as [e|]; cbn -[Cli.pdfOptions alter insert];
    destruct (render env _ c); reflexivity.
Qed.

(** Closes a goal about the answer of an explicit run. *)
Ltac answer_shape :=
  unfold error_response, pdf_response, answered, answer_json, answer_pdf;
  cbn [res world_of fst snd set_res status headers res_body after];
  repeat split.

(** *** Tear-down of the render session *)

Lemma closed_after_same (w w' : world) : engines w' = engines w -> closed_after w w'.
Proof. intros Heq h e Hl _. rewrite <- Heq. exact Hl. Qed.

Lemma lookup_done (po : PdfOptions) (h : nat) (es : list engine) (e : engine) :
  alter (engine_done po) h es !! h = Some e -> eng_browser_open e = false.
Proof.
  rewrite list_lookup_alter_eq. destruct (es !! h); simpl; [|discriminate].
  intros [= <-]. reflexivity.
Qed.

Lemma closed_after_done (w w' : world) (po : PdfOptions) (h : nat) :
  engines w' = alter (engine_done po) h (engines w) -> closed_after w w'.
Proof.
  intros Heq h' e Hl Hopen. rewrite Heq in Hl.
  destruct (decide (h = h')) as [<-|Hne].
  - apply lookup_done in Hl. congruence.
  - rewrite list_lookup_alter_ne in Hl by exact Hne. exact Hl.
Qed.

Lemma closed_after_new (w w' : world) (e0 : engine) :
  eng_browser_open e0 = false -> engines w' = engines w ++ [e0] -> closed_after w w'.
Proof.
  intros Hclosed Heq h e Hl Hopen. rewrite Heq in Hl.
  apply lookup_snoc_Some in Hl as [[_ Hl]|[_ <-]]; [exact Hl | congruence].
Qed.

Lemma lookup_new_closed (es : list engine) (e0 e : engine) :
  eng_browser_open e0 = false -> (es ++ [e0]) !! length es = Some e ->
  eng_browser_open e = false.
Proof. rewrite lookup_new. intros H [= <-]. exact H. Qed.

(** Closes a goal [torn_down w r] once [r] is an explicit triple. *)
Ltac torn_down_triple :=
  unfold torn_down; cbn [world_of events_of fst snd];
  split; [|split];
  [ first [ apply closed_after_same; reflexivity
          | eapply closed_after_done; reflexivity
          | eapply closed_after_new; [|reflexivity]; reflexivity ]
  | cbn [every_create_closed closes existsb app]; rewrite ?Nat.eqb_refl; reflexivity
  | let Hin := fresh "Hin" in let Hl := fresh "Hl" in
    intros ? ? ? Hin Hl; cbn [In app] in Hin;
    repeat (destruct Hin as [Hin|Hin]; [try discriminate Hin|]);
    try contradiction;
    try (injection Hin as <- <-);
    first [ eapply lookup_done; exact Hl
          | eapply lookup_new_closed; [|exact Hl]; reflexivity ] ].

Lemma server_convertHTML_torn_down (env : Env) (this : nat) (c options : value) (w : world) :
  torn_down w (Server.convertHTML env this c options w).
Proof.
  destruct (server_resolve_cases options) as [[_ Hres]|[_ [o Hres]]].
  - rewrite (server_convertHTML_throws _ _ _ _ _ _ Hres). torn_down_triple.
  - rewrite (server_convertHTML_run _ _ _ _ _ _ Hres). torn_down_triple.
Qed.

Lemma cli_convertHTML_torn_down (env : Env) (this : nat) (c : value) (outputPdf : string)
    (options : value) (w : world) :
  torn_down w (Cli.convertHTML env this c outputPdf options w).
Proof.
  destruct (cli_resolve_cases options) as [[_ Hres]|[_ [o Hres]]].
  - rewrite (cli_convertHTML_throws _ _ _ _ _ _ _ Hres). torn_down_triple.
  - rewrite (cli_convertHTML_run _ _ _ _ _ _ _ Hres). cbv zeta.
    destruct (render env _ c); [destruct (engines w !! this)|..]; torn_down_triple.
Qed.

Lemma cli_convertFromFile_torn_down (env : Env) (this : nat) (htmlFile outputPdf : string)
    (options : value) (w : world) :
  torn_down w (Cli.convertFromFile env this htmlFile outputPdf options w).
Proof.
  unfold Cli.convertFromFile, try_catch, bind, pathExists, ensureDir, console_log,
    console_error, emit, readFile, throw.
  destruct (bool_decide _); cbn [negb]; [|torn_down_triple].
  destruct (fs w !! htmlFile) as [text|]; [|torn_down_triple].
  destruct (cli_resolve_cases options) as [[_ Hres]|[_ [o Hres]]].
  - rewrite (cli_convertHTML_throws _ _ _ _ _ _ _ Hres). torn_down_triple.
  - rewrite (cli_convertHTML_run _ _ _ _ _ _ _ Hres). cbv zeta.
    destruct (render env _ _); [destruct (engines w !! this)|..]; torn_down_triple.
Qed.

Lemma cli_convertFromURL_torn_down (env : Env) (this : nat) (url outputPdf : string)
    (options : value) (w : world) :
  torn_down w (Cli.convertFromURL env this url outputPdf options w).
Proof.
  unfold Cli.convertFromURL, try_catch, bind, ensureDir, console_log,
    console_error, emit, throw.
  destruct (cli_resolve_cases options) as [[_ Hres]|[_ [o Hres]]].
  - rewrite (cli_convertHTML_throws _ _ _ _ _ _ _ Hres). torn_down_triple.
  - rewrite (cli_convertHTML_run _ _ _ _ _ _ _ Hres). cbv zeta.
    destruct (render env _ _); [destruct (engines w !! this)|..]; torn_down_triple.
Qed.

Lemma cli_convertFromString_torn_down (env : Env) (this : nat)
    (htmlString outputPdf : string) (options : value) (w : world) :
  torn_down w (Cli.convertFromString env this htmlString outputPdf options w).
Proof.
  unfold Cli.convertFromString, try_catch, bind, ensureDir, console_log,
    console_error, emit, throw.
  destruct (cli_resolve_cases options) as [[_ Hres]|[_ [o Hres]]].
  - rewrite (cli_convertHTML_throws _ _ _ _ _ _ _ Hres). torn_down_triple.
  - rewrite (cli_convertHTML_run _ _ _ _ _ _ _ Hres). cbv zeta.
    destruct (render env _ _); [destruct (engines w !! this)|..]; torn_down_triple.
Qed.

Lemma app_torn_down (env : Env) (req : Server.request) (w : world) :
  torn_down w (Server.app env req w).
Proof.
  destruct req as [| |req_body|form|req_body|method path].
  - torn_down_triple.
  - torn_down_triple.
  - rewrite app_string_run.
    destruct (nullish req_body); [torn_down_triple|].
    destruct (falsy _); [torn_down_triple|].
    unfold conversion_run.
    destruct (Server.resolve _) as [o|msg]; [|torn_down_triple].
    cbv zeta. destruct (render env _ _); torn_down_triple.
  - rewrite app_file_run.
    destruct (Server.mp_file form) as [file|]; [|torn_down_triple].
    destruct (negb _); [torn_down_triple|].
    destruct (negb _); [torn_down_triple|].
    destruct (_ <? _)%N; [torn_down_triple|].
    cbv zeta.
    destruct (Server.form_options env form) as [options|msg]; [|torn_down_triple].
    unfold conversion_run, after.
    destruct (Server.resolve _) as [o|msg]; [|torn_down_triple].
    cbv zeta. destruct (render env _ _); torn_down_triple.
  - rewrite app_url_run.
    destruct (nullish req_body); [torn_down_triple|].
    destruct (falsy _); [torn_down_triple|].
    unfold conversion_run.
    destruct (Server.resolve _) as [o|msg]; [|torn_down_triple].
    cbv zeta. destruct (render env _ _); torn_down_triple.
  - torn_down_triple.
Qed.

(** C3. Every conversion tears its render session down.  In the server
    ([convertHTML] and every request served by the application) and in the
    command line converter ([convertHTML], [convertFromFile],
    [convertFromURL], [convertFromString]) alike, whatever the engine does
    on [create] (it returns, it throws, it times out), [closeBrowser] is
    called on the engine after [create] and before the result or the error
    leaves [convertHTML], the engine ends with no browser, and no browser
    runs afterwards that was not running before.  The server's [convertHTML]
    either throws on [null] options before touching the engine, or performs
    exactly [setOptions], [create], [closeBrowser]. *)
Theorem browser_closed_on_every_exit (env : Env) (w : world) :
  (forall req : Server.request, torn_down w (Server.app env req w)) /\
  (forall (this : nat) (c options : value),
     torn_down w (Server.convertHTML env this c options w) /\
     ((options = VNull /\ events_of (Server.convertHTML env this c options w) = []) \/
      (exists po : PdfOptions,
         events_of (Server.convertHTML env this c options w)
         = [EvSetOptions this po; EvCreate this c; EvCloseBrowser this]))) /\
  (forall (this : nat) (c : value) (outputPdf : string) (options : value),
     torn_down w (Cli.convertHTML env this c outputPdf options w)) /\
  (forall (this : nat) (htmlFile outputPdf : string) (options : value),
     torn_down w (Cli.convertFromFile env this htmlFile outputPdf options w)) /\
  (forall (this : nat) (url outputPdf : string) (options : value),
     torn_down w (Cli.convertFromURL env this url outputPdf options w)) /\
  (forall (this : nat) (htmlString outputPdf : string) (options : value),
     torn_down w (Cli.convertFromString env this htmlString outputPdf options w)).
Proof.
  split; [intros req; apply app_torn_down|].
  split.
  { intros this c options. split; [apply server_convertHTML_torn_down|].
    destruct (server_resolve_cases options) as [[Hnull Hres]|[_ [o Hres]]].
    - left. split; [exact Hnull|].
      rewrite (server_convertHTML_throws _ _ _ _ _ _ Hres). reflexivity.
    - right. exists (Server.pdfOptions o).
      rewrite (server_convertHTML_run _ _ _ _ _ _ Hres). reflexivity. }
  split; [intros; apply cli_convertHTML_torn_down|].
  split; [intros; apply cli_convertFromFile_torn_down|].
  split; [intros; apply cli_convertFromURL_torn_down|].
  intros; apply cli_convertFromString_torn_down.
Qed.

(** *** Orientation *)

Lemma strict_eq_str_true (v : value) (lit : string) :
  strict_eq_str v lit = true <-> v = VStr lit.
Proof.
  destruct v; simpl; try (split; [discriminate | congruence]).
  rewrite String.eqb_eq. split; congruence.
Qed.

Lemma landscape_of_orientation (v : value) :
  strict_eq_str (or_default v (VStr "portrait")) "landscape" = true <-> v = VStr "landscape".
Proof.
  rewrite strict_eq_str_true.
  destruct v; simpl; split; congruence.
Qed.

(** C10. In the server and in the command line converter alike, the options
    handed to the engine have [landscape] set exactly when the caller's
    [orientation] is the string ['landscape']; any other value, ['Landscape']
    and unknown words included, resolves without error and gives
    [landscape: false]. *)
Theorem landscape_iff_exact_string (props : list (string * value)) (outputPdf : string) :
  (exists o : Server.RenderOptions,
     Server.resolve (VObj props) = Normal o /\
     (pdf_landscape (Server.pdfOptions o) = true <->
      own_prop props "orientation" = VStr "landscape") /\
     forall (env : Env) (this : nat) (htmlContent : value) (w : world),
       head (events_of (Server.convertHTML env this htmlContent (VObj props) w))
       = Some (EvSetOptions this (Server.pdfOptions o))) /\
  (exists o : Cli.RenderOptions,
     Cli.resolve (VObj props) = Normal o /\
     (pdf_landscape (Cli.pdfOptions o outputPdf) = true <->
      own_prop props "orientation" = VStr "landscape") /\
     forall (env : Env) (this : nat) (htmlContent : value) (w : world),
       head (events_of (Cli.convertHTML env this htmlContent outputPdf (VObj props) w))
       = Some (EvSetOptions this (Cli.pdfOptions o outputPdf))) /\
  pdf_landscape
    (Server.pdfOptions
       (Server.mkRenderOptions (VStr "A4") (VStr "Landscape") Server.default_margin
          (VBool true) (VNum 1.0%float) (VNum 30000%float))) = false /\
  Server.resolve (VObj [("orientation", VStr "Landscape")])
  = Normal (Server.mkRenderOptions (VStr "A4") (VStr "Landscape") Server.default_margin
              (VBool true) (VNum 1.0%float) (VNum 30000%float)) /\
  (exists o : Server.RenderOptions,
     Server.resolve (VObj [("orientation", VStr "sideways")]) = Normal o /\
     pdf_landscape (Server.pdfOptions o) = false).
Proof.
  split; [|split; [|split; [reflexivity|split; [reflexivity|]]]].
  - unfold Server.resolve. simpl nullish. cbv iota.
    eexists. split; [reflexivity|]. split.
    + cbn [Server.pdfOptions pdf_landscape Server.orientation get].
      apply landscape_of_orientation.
    + intros env this htmlContent w.
      rewrite (server_convertHTML_run env this htmlContent (VObj props) w _ eq_refl).
      reflexivity.
  - unfold Cli.resolve. simpl nullish. cbv iota.
    eexists. split; [reflexivity|]. split.
    + cbn [Cli.pdfOptions pdf_landscape Cli.orientation get].
      apply landscape_of_orientation.
    + intros env this htmlContent w.
      rewrite (cli_convertHTML_run env this htmlContent outputPdf (VObj props) w _ eq_refl).
      cbv zeta. destruct (render env _ htmlContent); [destruct (engines w !! this)|..];
        reflexivity.
  - eexists. split; reflexivity.
Qed.

(** *** Answers of the conversion endpoints *)









(** *** The uploaded file *)

(** The success path removes the upload. *)
Lemma upload_removed_after_success (env : Env) (form : Server.multipart)
    (file : Server.file_part) (w : world) (options : value) (o : Server.RenderOptions)
    (pdf : string) :
  Server.mp_file form = Some file ->
  Server.fieldname file = "htmlFile" ->
  accepted file = true ->
  (Server.fileSize <? N.of_nat (String.length (Server.content file)))%N = false ->
  Server.form_options env form = Normal options ->
  Server.resolve (or_default options (VObj [])) = Normal o ->
  render env (Some (Server.pdfOptions o)) (VStr (Server.content file)) = Rendered pdf ->
  let r := Server.app env (Server.PostConvertFile form) w in
  pdf_response (res (world_of r)) pdf /\
  In (EvReadFile (upload_path env file)) (events_of r) /\
  fs (world_of r) !! upload_path env file = None.
Proof.
  intros Hfile Hname Hacc Hsize Hopt Hres Hrender. cbv zeta.
  rewrite app_file_run, Hfile, Hname, Hacc, Hsize. cbn [String.eqb Ascii.eqb Bool.eqb negb].
  cbv zeta. rewrite Hopt. unfold conversion_run. rewrite Hres. cbv zeta. rewrite Hrender.
  split; [answer_shape|]. split; [cbn; auto 10|].
  cbn [world_of after fst snd answered set_res set_fs with_engine set_engines fs].
  apply lookup_delete_eq.
Qed.

(** The failure path does not: the catch block answers 500 and leaves the
    file where multer stored it. *)
Lemma upload_kept_after_failure (env : Env) (form : Server.multipart)
    (file : Server.file_part) (w : world) (options : value) (o : Server.RenderOptions)
    (msg : string) :
  Server.mp_file form = Some file ->
  Server.fieldname file = "htmlFile" ->
  accepted file = true ->
  (Server.fileSize <? N.of_nat (String.length (Server.content file)))%N = false ->
  Server.form_options env form = Normal options ->
  Server.resolve (or_default options (VObj [])) = Normal o ->
  render env (Some (Server.pdfOptions o)) (VStr (Server.content file)) = EngineError msg \/
  render env (Some (Server.pdfOptions o)) (VStr (Server.content file)) = TimedOut msg ->
  let r := Server.app env (Server.PostConvertFile form) w in
  error_response (res (world_of r)) 500 ("PDF creation failed: " +:+ msg) /\
  In (EvWriteFile (upload_path env file)) (events_of r) /\
  In (EvReadFile (upload_path env file)) (events_of r) /\
  fs (world_of r) !! upload_path env file = Some (Server.content file).
Proof.
  intros Hfile Hname Hacc Hsize Hopt Hres Hrender. cbv zeta.
  rewrite app_file_run, Hfile, Hname, Hacc, Hsize. cbn [String.eqb Ascii.eqb Bool.eqb negb].
  cbv zeta. rewrite Hopt. unfold conversion_run. rewrite Hres. cbv zeta.
  destruct Hrender as [-> | ->];
    (split; [answer_shape|]; split; [cbn; auto 10|]; split; [cbn; auto 10|];
     cbn [world_of after fst snd answered set_res set_fs with_engine set_engines fs];
     apply lookup_insert_eq).
Qed.

(** C2, on the code. A valid upload whose render fails: the answer is 500
    and the uploaded file, stored and read, is still on disk when the answer
    is sent; the file is not removed whatever the outcome. *)
Theorem upload_left_behind_when_render_fails :
  let env := Samples.env (EngineError "net::ERR_CONNECTION_REFUSED") in
  let r := Server.app env (Server.PostConvertFile Samples.upload_html) Samples.world0 in
  status (res (world_of r)) = 500%N /\
  In (EvReadFile Samples.stored_path) (events_of r) /\
  fs (world_of r) !! Samples.stored_path = Some Samples.page /\
  ~ upload_removed_whatever_the_outcome env.
Proof.
  cbv zeta.
  pose proof (upload_kept_after_failure
                (Samples.env (EngineError "net::ERR_CONNECTION_REFUSED"))
                Samples.upload_html
                (Server.mkFilePart "htmlFile" "test.html" "text/html" Samples.page)
                Samples.world0 (VObj [])
                (Server.mkRenderOptions (VStr "A4") (VStr "portrait") Server.default_margin
                   (VBool true) (VNum 1.0%float) (VNum 30000%float))
                "net::ERR_CONNECTION_REFUSED"
                eq_refl eq_refl eq_refl eq_refl eq_refl eq_refl (or_introl eq_refl))
    as (Hans & Hwrite & Hread & Hkept).
  change (upload_path _ _) with Samples.stored_path in Hwrite, Hread, Hkept.
  split; [apply Hans|]. split; [exact Hread|]. split; [exact Hkept|].
  intros Hclaim. specialize (Hclaim _ _ _ Hwrite Hread).
  rewrite Hkept in Hclaim. discriminate Hclaim.
Qed.

(** *** Refused uploads *)

(** A text file is answered with 500, not 400. *)
Lemma refused_upload_not_400 :
  ~ refused_upload_answered_400 (Samples.env (Rendered "%PDF-1.7")).
Proof.
  intros H.
  specialize (H Samples.upload_txt
                (Server.mkFilePart "htmlFile" "notes.txt" "text/plain" "hello")
                Samples.world0 eq_refl eq_refl eq_refl).
  vm_compute in H. discriminate H.
Qed.

(** C4, as the code has it. An upload that is neither of type [text/html]
    nor named [*.html] is refused before the handler runs: the error of the
    filter goes to the error-handling middleware, which answers with status
    500 and the body [{ error: 'Only HTML files are allowed!' }]; nothing is
    rendered, no engine is created and nothing is written to the upload
    directory. *)
Theorem refused_upload_answered_500 (env : Env) (form : Server.multipart)
    (file : Server.file_part) (w : world) :
  Server.mp_file form = Some file ->
  Server.fieldname file = "htmlFile" ->
  String.eqb (Server.mimetype file) "text/html" = false ->
  endsWith (Server.originalname file) ".html" = false ->
  let r := Server.app env (Server.PostConvertFile form) w in
  result_of r = Normal tt /\
  error_response (res (world_of r)) 500 "Only HTML files are allowed!" /\
  events_of r = [EvConsoleError "API Error: Only HTML files are allowed!"] /\
  fs (world_of r) = fs w /\
  engines (world_of r) = engines w.
Proof.
  intros Hfile Hname Hmime Hext. cbv zeta.
  rewrite app_file_run, Hfile, Hname. unfold accepted. rewrite Hmime, Hext.
  repeat split.
Qed.

Lemma refused_upload_answered_500_witness :
  Server.mp_file Samples.upload_txt
  = Some (Server.mkFilePart "htmlFile" "notes.txt" "text/plain" "hello") /\
  error_response
    (res (world_of (Server.app (Samples.env (Rendered "%PDF-1.7"))
                      (Server.PostConvertFile Samples.upload_txt) Samples.world0)))
    500 "Only HTML files are allowed!".
Proof.
  split; [reflexivity|].
  apply (refused_upload_answered_500 (Samples.env (Rendered "%PDF-1.7")) Samples.upload_txt
           (Server.mkFilePart "htmlFile" "notes.txt" "text/plain" "hello") Samples.world0);
    reflexivity.
Defined.

(** *** Missing required field *)





(** *** The options endpoint *)

(** C8. [GET /api/options] renders nothing and answers with the eleven
    format names, the two orientations and a [defaultOptions] object that
    holds the six fields, each with its default (a listed format, a listed
    orientation): resolving it gives what resolving the empty object
    gives. *)
Theorem options_endpoint (env : Env) (w : world) :
  let r := Server.app env Server.GetOptions w in
  result_of r = Normal tt /\
  events_of r = [] /\
  engines (world_of r) = engines w /\
  fs (world_of r) = fs w /\
  status (res (world_of r)) = 200%N /\
  res_body (res (world_of r))
  = BodyJson
      (VObj [("formats",
              VArr [VStr "A4"; VStr "Letter"; VStr "Legal"; VStr "Tabloid"; VStr "Ledger";
                    VStr "A0"; VStr "A1"; VStr "A2"; VStr "A3"; VStr "A5"; VStr "A6"]);
             ("orientations", VArr [VStr "portrait"; VStr "landscape"]);
             ("defaultOptions", Server.defaultOptions)]) /\
  length Server.formats = 11 /\
  NoDup Server.formats /\
  Server.orientations = ["portrait"; "landscape"] /\
  In "A4" Server.formats /\
  In "portrait" Server.orientations /\
  forallb (has_prop [("format", VStr "A4");
                     ("orientation", VStr "portrait");
                     ("margin", Server.default_margin);
                     ("printBackground", VBool true);
                     ("scale", VNum 1.0%float);
                     ("timeout", VNum 30000%float)])
    ["format"; "orientation"; "margin"; "printBackground"; "scale"; "timeout"] = true /\
  Server.defaultOptions
  = VObj [("format", VStr "A4");
          ("orientation", VStr "portrait");
          ("margin", Server.default_margin);
          ("printBackground", VBool true);
          ("scale", VNum 1.0%float);
          ("timeout", VNum 30000%float)] /\
  Server.resolve Server.defaultOptions = Server.resolve (VObj []) /\
  Server.resolve Server.defaultOptions
  = Normal (Server.mkRenderOptions (VStr "A4") (VStr "portrait") Server.default_margin
              (VBool true) (VNum 1.0%float) (VNum 30000%float)).
Proof.
  cbv zeta. repeat split.
  - apply (bool_decide_unpack _). vm_compute. exact I.
  - cbn. auto.
  - cbn. auto.
Qed.

(** *** The input file of the command line converter *)

(** C9. When the input path does not exist, [convertFromFile] throws the
    not-found error right after the existence check: the error is logged
    and thrown again, the file is not read, no output directory is made,
    nothing is rendered and the world is as it was. *)
Theorem missing_input_file_fails_first (env : Env) (this : nat) (htmlFile outputPdf : string)
    (options : value) (w : world) :
  fs w !! htmlFile = None ->
  Cli.convertFromFile env this htmlFile outputPdf options w
  = (Throw ("HTML file '" +:+ htmlFile +:+ "' not found!"), w,
     [EvPathExists htmlFile;
      EvConsoleError ("❌ Error converting file: " +:+
                      ("HTML file '" +:+ htmlFile +:+ "' not found!"))]).
Proof.
  intros Habsent.
  unfold Cli.convertFromFile, try_catch, bind, pathExists. rewrite Habsent.
  reflexivity.
Qed.

Lemma missing_input_file_fails_first_witness :
  fs Samples.world0 !! "missing.html" = None /\
  result_of (Cli.convertFromFile (Samples.env (Rendered "%PDF-1.7")) 0 "missing.html"
               "out.pdf" (VObj []) Samples.world0)
  = Throw "HTML file 'missing.html' not found!".
Proof.
  split; [reflexivity|].
  rewrite (missing_input_file_fails_first (Samples.env (Rendered "%PDF-1.7")) 0
             "missing.html" "out.pdf" (VObj []) Samples.world0 eq_refl).
  reflexivity.
Defined.

(** ** Further properties of the server *)

(** *** The upload filter *)

Lemma substring_all (s : string) : substring 0 (String.length s) s = s.
Proof. induction s as [|c s IH]; simpl; [reflexivity | rewrite IH; reflexivity]. Qed.

Lemma substring_skip (p s : string) (m : nat) :
  substring (String.length p) m (p +:+ s) = substring 0 m s.
Proof. induction p as [|c p IH]; simpl; [reflexivity | exact IH]. Qed.

Lemma substring_split (s : string) (k : nat) :
  k <= String.length s ->
  s = substring 0 k s +:+ substring k (String.length s - k) s.
Proof.
  revert k. induction s as [|c s IH]; intros k Hk; simpl in *.
  - destruct k; reflexivity.
  - destruct k as [|k]; simpl.
    + rewrite substring_all. reflexivity.
    + change (String c s
              = String c (substring 0 k s +:+ substring k (String.length s - k) s)).
      f_equal. apply IH. lia.
Qed.

Lemma length_append (p s : string) :
  String.length (p +:+ s) = String.length p + String.length s.
Proof. induction p as [|c p IH]; simpl; [reflexivity | rewrite IH; reflexivity]. Qed.

(** [endsWith] holds exactly of the strings that end with the suffix. *)
Lemma endsWith_suffix (s suffix : string) :
  endsWith s suffix = true <-> exists stem : string, s = stem +:+ suffix.
Proof.
  unfold endsWith. split.
  - destruct (Nat.leb_spec (String.length suffix) (String.length s)) as [Hle|Hlt];
      [|discriminate].
    intros Heq. apply String.eqb_eq in Heq.
    exists (substring 0 (String.length s - String.length suffix) s).
    pose proof (substring_split s (String.length s - String.length suffix)) as Hsplit.
    replace (String.length s - (String.length s - String.length suffix))
      with (String.length suffix) in Hsplit by lia.
    rewrite Heq in Hsplit. apply Hsplit. lia.
  - intros [stem ->]. rewrite length_append.
    destruct (Nat.leb_spec (String.length suffix) (String.length stem + String.length suffix))
      as [_|Hlt]; [|lia].
    replace (String.length stem + String.length suffix - String.length suffix)
      with (String.length stem) by lia.
    rewrite substring_skip, substring_all. apply String.eqb_refl.
Qed.

(** X1. The upload filter accepts a file exactly when its MIME type is
    [text/html] or its original name ends with [.html] (either is enough, so
    a name ending with [.html] is accepted whatever the declared type, and
    the test is case sensitive); every other file is refused with the error
    ['Only HTML files are allowed!']. *)
Theorem fileFilter_accepts_iff (file : Server.file_part) :
  (Server.fileFilter file = Normal true <->
   Server.mimetype file = "text/html" \/
   exists stem : string, Server.originalname file = stem +:+ ".html") /\
  (Server.fileFilter file <> Normal true ->
   Server.fileFilter file = Throw "Only HTML files are allowed!").
Proof.
  unfold Server.fileFilter. split; [split|].
  - intros H.
    destruct (String.eqb (Server.mimetype file) "text/html") eqn:Hmime.
    + left. apply String.eqb_eq. exact Hmime.
    + destruct (endsWith (Server.originalname file) ".html") eqn:Hname.
      * right. apply endsWith_suffix. exact Hname.
      * discriminate H.
  - intros [Hmime|Hname].
    + rewrite Hmime. reflexivity.
    + apply endsWith_suffix in Hname. rewrite Hname, orb_true_r. reflexivity.
  - intros H. destruct (_ || _); [exfalso; apply H; reflexivity | reflexivity].
Qed.

(** *** Names of the stored uploads *)

Lemma pretty_N_go_dash_free (x : N) (s : string) :
  dash_free s = true -> dash_free (pretty_N_go x s) = true.
Proof.
  revert s. induction (N.lt_wf_0 x) as [x _ IH]. intros s Hs.
  assert (x = 0 \/ 0 < x)%N as [->|Hpos] by lia.
  - rewrite pretty_N_go_0. exact Hs.
  - rewrite pretty_N_go_step by exact Hpos. apply IH.
    + apply N.div_lt; [exact Hpos | reflexivity].
    + simpl. rewrite Hs, andb_true_r.
      unfold pretty_N_char. repeat case_match; reflexivity.
Qed.

Lemma pretty_N_dash_free (x : N) : dash_free (pretty x) = true.
Proof.
  unfold pretty, pretty_N. destruct (decide (x = 0%N)); [reflexivity|].
  apply pretty_N_go_dash_free. reflexivity.
Qed.

Lemma append_nil (s : string) : EmptyString +:+ s = s.
Proof. reflexivity. Qed.

Lemma append_cons (c : ascii) (a s : string) : String c a +:+ s = String c (a +:+ s).
Proof. reflexivity. Qed.

(** Two dash-free strings followed by a dash are cut at that dash. *)
Lemma dash_separates (a a' b b' : string) :
  dash_free a = true -> dash_free a' = true ->
  a +:+ "-" +:+ b = a' +:+ "-" +:+ b' -> a = a' /\ b = b'.
Proof.
  revert a'. induction a as [|c a IH]; intros [|c' a'] Ha Ha' Heq;
    rewrite ?append_nil, ?append_cons, ?append_nil in Heq; simpl in Ha, Ha'.
  - injection Heq as ->. split; reflexivity.
  - injection Heq as <- _. apply andb_prop in Ha' as [Hc _]. discriminate Hc.
  - injection Heq as -> _. apply andb_prop in Ha as [Hc _]. discriminate Hc.
  - injection Heq as -> Heq.
    apply andb_prop in Ha as [_ Ha]. apply andb_prop in Ha' as [_ Ha'].
    destruct (IH a' Ha Ha' Heq) as [-> ->]. split; reflexivity.
Qed.

Lemma append_inv_head (p a b : string) : p +:+ a = p +:+ b -> a = b.
Proof.
  induction p as [|c p IH]; rewrite ?append_nil, ?append_cons; [auto | intros [= H]; auto].
Qed.

Lemma append_inv_tail (a b s : string) : a +:+ s = b +:+ s -> a = b.
Proof.
  revert b. induction a as [|c a IH]; intros [|c' b] Heq;
    rewrite ?append_nil, ?append_cons, ?append_nil in Heq.
  - reflexivity.
  - exfalso. apply (f_equal String.length) in Heq. simpl in Heq.
    rewrite length_append in Heq. lia.
  - exfalso. apply (f_equal String.length) in Heq. simpl in Heq.
    rewrite length_append in Heq. lia.
  - injection Heq as -> Heq. f_equal. apply IH. exact Heq.
Qed.

(** X15. Two uploads of the same field are stored under the same path
    exactly when they arrive in the same millisecond and draw the same
    random number: the stored name is made of the field name, the clock and
    the random number only, so the client's file name plays no part in it
    and two uploads that differ in clock or in random number never
    overwrite each other. *)
Theorem upload_paths_collide_iff (env1 env2 : Env) (file1 file2 : Server.file_part) :
  dirname env1 = dirname env2 ->
  Server.fieldname file1 = Server.fieldname file2 ->
  (upload_path env1 file1 = upload_path env2 file2 <->
   date_now env1 = date_now env2 /\ random_1e9 env1 = random_1e9 env2).
Proof.
  intros Hdir Hfield.
  unfold upload_path, upload_dir, Server.filename. rewrite Hdir, Hfield. split.
  - intros Heq.
    do 4 apply append_inv_head in Heq.
    apply append_inv_tail in Heq.
    apply dash_separates in Heq as [Hnow Hrandom]; try apply pretty_N_dash_free.
    split; apply (inj pretty); assumption.
  - intros [-> ->]. reflexivity.
Qed.

Lemma upload_paths_collide_iff_witness :
  Server.fieldname (Server.mkFilePart "htmlFile" "a.html" "text/html" "<p>a</p>")
  = Server.fieldname (Server.mkFilePart "htmlFile" "b.html" "text/html" "<p>b</p>") /\
  upload_path (Samples.env (Rendered "%PDF-1.7"))
    (Server.mkFilePart "htmlFile" "a.html" "text/html" "<p>a</p>")
  = upload_path (Samples.env (EngineError "crash"))
      (Server.mkFilePart "htmlFile" "b.html" "text/html" "<p>b</p>").
Proof.
  split; [reflexivity|].
  apply (upload_paths_collide_iff (Samples.env (Rendered "%PDF-1.7"))
           (Samples.env (EngineError "crash"))
           (Server.mkFilePart "htmlFile" "a.html" "text/html" "<p>a</p>")
           (Server.mkFilePart "htmlFile" "b.html" "text/html" "<p>b</p>")
           eq_refl eq_refl).
  split; reflexivity.
Defined.

(** *** What the caller's options can reach *)

Lemma server_resolve_reads_six_fields (props props' : list (string * value)) :
  (forall k : string, In k option_keys -> own_prop props k = own_prop props' k) ->
  Server.resolve (VObj props) = Server.resolve (VObj props').
Proof.
  intros H. unfold Server.resolve, get. simpl nullish. cbv iota.
  rewrite (H "format"), (H "orientation"), (H "margin"), (H "printBackground"),
    (H "scale"), (H "timeout") by (unfold option_keys; simpl; auto 10).
  reflexivity.
Qed.

(** X2. In the server the caller's options reach the engine through the six
    fields only: two option objects that agree on [format], [orientation],
    [margin], [printBackground], [scale] and [timeout] make [convertHTML]
    run identically, whatever else they hold, and the options handed to the
    engine always have [headless: 'new'], the two sandbox flags and no
    [path]. *)
Theorem server_convertHTML_reads_six_fields (env : Env) (this : nat) (c : value)
    (props props' : list (string * value)) (w : world) :
  (forall k : string, In k option_keys -> own_prop props k = own_prop props' k) ->
  Server.convertHTML env this c (VObj props) w
  = Server.convertHTML env this c (VObj props') w /\
  (forall po : PdfOptions,
     In (EvSetOptions this po) (events_of (Server.convertHTML env this c (VObj props) w)) ->
     pdf_headless po = VStr "new" /\
     pdf_path po = None /\
     pdf_args po = ["--no-sandbox"; "--disable-setuid-sandbox"]).
Proof.
  intros H. split.
  - unfold Server.convertHTML. cbn [or_default].
    rewrite (server_resolve_reads_six_fields props props' H). reflexivity.
  - intros po Hin.
    destruct (server_resolve_cases (VObj props)) as [[Hnull _]|[_ [o Hres]]];
      [discriminate Hnull|].
    rewrite (server_convertHTML_run _ _ _ _ _ _ Hres) in Hin.
    cbn [events_of snd In] in Hin.
    destruct Hin as [Hin|[Hin|[Hin|[]]]]; try discriminate Hin.
    injection Hin as <-. repeat split.
Qed.

Lemma server_convertHTML_reads_six_fields_witness :
  (forall k : string, In k option_keys ->
     own_prop MoreSamples.letter_with_extras k = own_prop MoreSamples.letter k) /\
  Server.convertHTML (Samples.env (Rendered "%PDF-1.7")) 0 (VStr Samples.page)
    (VObj MoreSamples.letter_with_extras) Samples.world0
  = Server.convertHTML (Samples.env (Rendered "%PDF-1.7")) 0 (VStr Samples.page)
      (VObj MoreSamples.letter) Samples.world0.
Proof.
  assert (Hagree : forall k : string, In k option_keys ->
            own_prop MoreSamples.letter_with_extras k = own_prop MoreSamples.letter k).
  { intros k Hk. unfold option_keys in Hk. simpl in Hk.
    destruct Hk as [<-|[<-|[<-|[<-|[<-|[<-|[]]]]]]]; reflexivity. }
  split; [exact Hagree|].
  apply (server_convertHTML_reads_six_fields (Samples.env (Rendered "%PDF-1.7")) 0
           (VStr Samples.page) MoreSamples.letter_with_extras MoreSamples.letter
           Samples.world0 Hagree).
Defined.

(** *** Inputs that pass the presence check *)

Lemma or_default_object_twice (v : value) :
  or_default (or_default v (VObj [])) (VObj []) = or_default v (VObj []).
Proof. destruct v; reflexivity. Qed.

(** X3. The presence check of the string and url endpoints is a truthiness
    test and nothing more: whenever [html] (resp. [url]) is truthy, be it a
    string or not, and the options are not [null], exactly one render is
    made, on a new engine, with that very value as content and with the
    resolved options. *)
Theorem truthy_input_is_rendered (env : Env) (req_body : value) (w : world)
    (o : Server.RenderOptions) :
  nullish req_body = false ->
  Server.resolve (or_default (get req_body "options") (VObj [])) = Normal o ->
  (falsy (get req_body "html") = false ->
   exists tail : list event,
     events_of (Server.app env (Server.PostConvertString req_body) w)
     = EvSetOptions (length (engines w)) (Server.pdfOptions o)
       :: EvCreate (length (engines w)) (get req_body "html")
       :: EvCloseBrowser (length (engines w)) :: tail /\
     renders tail = 0) /\
  (falsy (get req_body "url") = false ->
   exists tail : list event,
     events_of (Server.app env (Server.PostConvertUrl req_body) w)
     = EvSetOptions (length (engines w)) (Server.pdfOptions o)
       :: EvCreate (length (engines w)) (get req_body "url")
       :: EvCloseBrowser (length (engines w)) :: tail /\
     renders tail = 0).
Proof.
  intros Hnull Hres. split; intros Htruthy.
  - rewrite app_string_run, Hnull, Htruthy. unfold conversion_run.
    rewrite or_default_object_twice, Hres. cbv zeta.
    destruct (render env _ _); eexists; split; reflexivity.
  - rewrite app_url_run, Hnull, Htruthy. unfold conversion_run.
    rewrite or_default_object_twice, Hres. cbv zeta.
    destruct (render env _ _); eexists; split; reflexivity.
Qed.

Lemma truthy_input_is_rendered_witness :
  nullish (VObj [("html", VNum 42%float); ("url", VArr [])]) = false /\
  falsy (VNum 42%float) = false /\
  falsy (VArr []) = false /\
  exists tail : list event,
    events_of (Server.app (Samples.env (EngineError "not a document"))
                 (Server.PostConvertString (VObj [("html", VNum 42%float); ("url", VArr [])]))
                 Samples.world0)
    = EvSetOptions 0 (Server.pdfOptions
                        (Server.mkRenderOptions (VStr "A4") (VStr "portrait")
                           Server.default_margin (VBool true) (VNum 1.0%float)
                           (VNum 30000%float)))
      :: EvCreate 0 (VNum 42%float) :: EvCloseBrowser 0 :: tail /\
    renders tail = 0.
Proof.
  split; [reflexivity|]. split; [reflexivity|]. split; [reflexivity|].
  destruct (truthy_input_is_rendered (Samples.env (EngineError "not a document"))
              (VObj [("html", VNum 42%float); ("url", VArr [])]) Samples.world0
              (Server.mkRenderOptions (VStr "A4") (VStr "portrait")
                 Server.default_margin (VBool true) (VNum 1.0%float) (VNum 30000%float))
              eq_refl eq_refl) as [Hstring _].
  apply Hstring. reflexivity.
Defined.

(** *** Every request *)

(** Splits a goal about [Server.app env req w] into its explicit runs. *)
Ltac app_cases env req w :=
  destruct req as [| |?req_body|?form|?req_body|?method ?path];
  [ | | rewrite app_string_run;
        destruct (nullish _) eqn:?Hnull; [|destruct (falsy _) eqn:?Hfalsy];
        [ | | unfold conversion_run;
              destruct (Server.resolve _) as [?o|?msg] eqn:?Hres;
              [cbv zeta; destruct (render env _ _) eqn:?Hrender|] ]
    | rewrite app_file_run; unfold refused, after;
      destruct (Server.mp_file _) as [?file|] eqn:?Hfile;
      [ destruct (negb (String.eqb _ _)) eqn:?Hfield;
        [ | destruct (negb (accepted _)) eqn:?Haccepted;
            [ | destruct (_ <? _)%N eqn:?Hsize;
                [ | cbv zeta;
                    destruct (Server.form_options env _) as [?options|?msg] eqn:?Hoptions;
                    [ unfold conversion_run;
                      destruct (Server.resolve _) as [?o|?msg] eqn:?Hres;
                      [cbv zeta; destruct (render env _ _) eqn:?Hrender|]
                    | ] ] ] ]
      | ]
    | rewrite app_url_run;
        destruct (nullish _) eqn:?Hnull; [|destruct (falsy _) eqn:?Hfalsy];
        [ | | unfold conversion_run;
              destruct (Server.resolve _) as [?o|?msg] eqn:?Hres;
              [cbv zeta; destruct (render env _ _) eqn:?Hrender|] ]
    | ].

(** X5. A request never touches the engine of another request: the heap of
    engines is left as it was or gets exactly one more engine, added at the
    end with its browser closed; the engines already there are unchanged,
    and only a conversion request adds one. *)
Theorem app_engine_frame (env : Env) (req : Server.request) (w : world) :
  let r := Server.app env req w in
  (engines (world_of r) = engines w /\ renders (events_of r) = 0) \/
  (is_conversion req = true /\
   exists po : option PdfOptions,
     engines (world_of r) = engines w ++ [mkEngine po false]).
Proof.
  cbv zeta.
  app_cases env req w;
    first [ left; split; reflexivity
          | right; split; [reflexivity|]; eexists; reflexivity ].
Qed.

(** *** The file system *)

(** X6. The server changes no file but the upload of the request and makes
    no directory but its [uploads] directory.  Every path other than the
    one under which multer stores the upload holds after the request the
    file it held before; every write and every removal of the run is at
    that path; and the one directory the run ever ensures is [uploads]
    under the server's directory, which the storage callback ensures for an
    upload that has passed the filter and at no other time (so also for an
    upload that is then refused as too large). *)
Theorem app_fs_frame (env : Env) (req : Server.request) (w : world) :
  let r := Server.app env req w in
  (forall p : string,
     (forall (form : Server.multipart) (file : Server.file_part),
        req = Server.PostConvertFile form ->
        Server.mp_file form = Some file ->
        p <> upload_path env file) ->
     fs (world_of r) !! p = fs w !! p) /\
  (forall p : string,
     In (EvWriteFile p) (events_of r) \/ In (EvRemove p) (events_of r) ->
     exists (form : Server.multipart) (file : Server.file_part),
       req = Server.PostConvertFile form /\
       Server.mp_file form = Some file /\
       p = upload_path env file) /\
  (forall d : string,
     In (EvEnsureDir d) (events_of r) <->
     d = upload_dir env /\
     exists (form : Server.multipart) (file : Server.file_part),
       req = Server.PostConvertFile form /\
       Server.mp_file form = Some file /\
       Server.fieldname file = "htmlFile" /\
       accepted file = true).
Proof.
  cbv zeta. split; [|split].
  - intros p Hother.
    app_cases env req w; try reflexivity;
      specialize (Hother _ _ eq_refl Hfile);
      cbn [world_of fst snd answered set_res set_fs with_engine set_engines fs];
      rewrite ?lookup_delete_ne, ?lookup_insert_ne by congruence; reflexivity.
  - intros p.
    app_cases env req w; cbn [events_of snd In app];
      intros Hin;
      try (exfalso; intuition discriminate);
      (eexists _, _; split; [reflexivity|]; split; [exact Hfile|];
       intuition (try discriminate); congruence).
  - intros d.
    app_cases env req w; cbn [events_of snd In app];
      (split;
       [ intros Hin;
         try (exfalso; intuition discriminate);
         (split; [intuition (try discriminate); congruence|];
          eexists _, _; split; [reflexivity|]; split; [exact Hfile|];
          apply negb_false_iff in Hfield; apply String.eqb_eq in Hfield;
          apply negb_false_iff in Haccepted; split; assumption)
       | intros (Hd & form' & file' & Hreq & Hfile' & Hfield' & Haccepted');
         try discriminate Hreq;
         injection Hreq as <-;
         try (rewrite Hfile in Hfile'; discriminate Hfile');
         try (rewrite Hfile in Hfile'; injection Hfile' as <-;
              first [ rewrite Hfield' in Hfield; discriminate Hfield
                    | rewrite Haccepted' in Haccepted; discriminate Haccepted
                    | subst d; auto 10 ]) ]).
Qed.

Lemma app_fs_frame_witness :
  (forall (form : Server.multipart) (file : Server.file_part),
     Server.PostConvertFile Samples.upload_html = Server.PostConvertFile form ->
     Server.mp_file form = Some file ->
     "/srv/app/package.json" <> upload_path (Samples.env (Rendered "%PDF-1.7")) file) /\
  fs (world_of (Server.app (Samples.env (Rendered "%PDF-1.7"))
                  (Server.PostConvertFile Samples.upload_html)
                  (mkWorld {["/srv/app/package.json" := "{}"]} [] fresh_response)))
    !! "/srv/app/package.json" = Some "{}" /\
  In (EvEnsureDir "/srv/app/uploads")
    (events_of (Server.app (Samples.env (Rendered "%PDF-1.7"))
                  (Server.PostConvertFile Samples.upload_html)
                  (mkWorld {["/srv/app/package.json" := "{}"]} [] fresh_response))).
Proof.
  assert (Hother : forall (form : Server.multipart) (file : Server.file_part),
            Server.PostConvertFile Samples.upload_html = Server.PostConvertFile form ->
            Server.mp_file form = Some file ->
            "/srv/app/package.json" <> upload_path (Samples.env (Rendered "%PDF-1.7")) file).
  { intros form file [= <-] [= <-]. discriminate. }
  split; [exact Hother|].
  destruct (app_fs_frame (Samples.env (Rendered "%PDF-1.7"))
              (Server.PostConvertFile Samples.upload_html)
              (mkWorld {["/srv/app/package.json" := "{}"]} [] fresh_response))
    as (Hfiles & _ & Hdirs).
  split.
  - rewrite (Hfiles "/srv/app/package.json" Hother). reflexivity.
  - apply Hdirs. split; [reflexivity|].
    exists Samples.upload_html,
      (Server.mkFilePart "htmlFile" "test.html" "text/html" Samples.page).
    repeat split.
Defined.

(** X7. When [req.body.options] does not parse (the text of the one
    [options] field or, for a repeated field, its texts joined by commas),
    the request is answered with status 500 and the parser's message; the
    upload, already stored by multer, is neither read nor removed, nothing
    is rendered and no engine is created. *)
Theorem unparsable_options_leave_upload (env : Env) (form : Server.multipart)
    (file : Server.file_part) (w : world) (msg : string) :
  Server.mp_file form = Some file ->
  Server.fieldname file = "htmlFile" ->
  accepted file = true ->
  (Server.fileSize <? N.of_nat (String.length (Server.content file)))%N = false ->
  Server.form_options env form = Throw msg ->
  let r := Server.app env (Server.PostConvertFile form) w in
  error_response (res (world_of r)) 500 msg /\
  events_of r = [EvEnsureDir (upload_dir env); EvWriteFile (upload_path env file);
                 EvConsoleError ("Conversion error: " +:+ msg)] /\
  fs (world_of r) !! upload_path env file = Some (Server.content file) /\
  engines (world_of r) = engines w /\
  (forall texts : list string,
     Server.mp_options form = Server.Repeated texts ->
     JSON_parse env (String.concat "," texts) = Throw msg).
Proof.
  intros Hfile Hname Hacc Hsize Hopt. cbv zeta.
  rewrite app_file_run, Hfile, Hname, Hacc, Hsize. cbn [String.eqb Ascii.eqb Bool.eqb negb].
  cbv zeta. rewrite Hopt.
  split; [answer_shape|]. split; [reflexivity|]. split; [|split; [reflexivity|]].
  - cbn [world_of fst snd answered set_res set_fs fs]. apply lookup_insert_eq.
  - intros texts Htexts. unfold Server.form_options in Hopt. rewrite Htexts in Hopt.
    exact Hopt.
Qed.

Lemma unparsable_options_leave_upload_witness :
  Server.form_options (Samples.env (Rendered "%PDF-1.7")) MoreSamples.upload_split_options
  = Throw "Unexpected token in JSON" /\
  fs (world_of (Server.app (Samples.env (Rendered "%PDF-1.7"))
                  (Server.PostConvertFile MoreSamples.upload_split_options) Samples.world0))
    !! Samples.stored_path = Some Samples.page.
Proof.
  split; [reflexivity|].
  apply (unparsable_options_leave_upload (Samples.env (Rendered "%PDF-1.7"))
           MoreSamples.upload_split_options
           (Server.mkFilePart "htmlFile" "test.html" "text/html" Samples.page)
           Samples.world0 "Unexpected token in JSON"
           eq_refl eq_refl eq_refl eq_refl eq_refl).
Defined.

(** X8. A file conversion that succeeds leaves the files as it found them:
    the uploads directory is ensured, the upload is stored, read, rendered
    and removed, in that order, and the answer is the document; when no
    file was at the upload's path before, the files after the request are
    the files before it, and what remains of the request on disk is the
    uploads directory.  The options are what [req.body.options] parses to:
    the one field's text, or the texts of a repeated field joined by
    commas. *)
Theorem file_conversion_restores_files (env : Env) (form : Server.multipart)
    (file : Server.file_part) (w : world) (options : value) (o : Server.RenderOptions)
    (pdf : string) :
  Server.mp_file form = Some file ->
  Server.fieldname file = "htmlFile" ->
  accepted file = true ->
  (Server.fileSize <? N.of_nat (String.length (Server.content file)))%N = false ->
  Server.form_options env form = Normal options ->
  Server.resolve (or_default options (VObj [])) = Normal o ->
  render env (Some (Server.pdfOptions o)) (VStr (Server.content file)) = Rendered pdf ->
  fs w !! upload_path env file = None ->
  let r := Server.app env (Server.PostConvertFile form) w in
  pdf_response (res (world_of r)) pdf /\
  events_of r
  = [EvEnsureDir (upload_dir env); EvWriteFile (upload_path env file);
     EvReadFile (upload_path env file);
     EvSetOptions (length (engines w)) (Server.pdfOptions o);
     EvCreate (length (engines w)) (VStr (Server.content file));
     EvCloseBrowser (length (engines w)); EvRemove (upload_path env file)] /\
  fs (world_of r) = fs w /\
  (forall texts : list string,
     Server.mp_options form = Server.Repeated texts ->
     JSON_parse env (String.concat "," texts) = Normal options).
Proof.
  intros Hfile Hname Hacc Hsize Hopt Hres Hrender Hfree. cbv zeta.
  rewrite app_file_run, Hfile, Hname, Hacc, Hsize. cbn [String.eqb Ascii.eqb Bool.eqb negb].
  cbv zeta. rewrite Hopt. unfold conversion_run. rewrite Hres. cbv zeta. rewrite Hrender.
  split; [answer_shape|]. split; [reflexivity|]. split.
  - cbn [world_of after fst snd answered set_res set_fs with_engine set_engines fs].
    apply delete_insert_id. exact Hfree.
  - intros texts Htexts. unfold Server.form_options in Hopt. rewrite Htexts in Hopt.
    exact Hopt.
Qed.

Lemma file_conversion_restores_files_witness :
  fs Samples.world0 !! Samples.stored_path = None /\
  fs (world_of (Server.app (Samples.env (Rendered "%PDF-1.7"))
                  (Server.PostConvertFile Samples.upload_html) Samples.world0))
  = fs Samples.world0.
Proof.
  split; [reflexivity|].
  apply (file_conversion_restores_files (Samples.env (Rendered "%PDF-1.7"))
           Samples.upload_html
           (Server.mkFilePart "htmlFile" "test.html" "text/html" Samples.page)
           Samples.world0 (VObj [])
           (Server.mkRenderOptions (VStr "A4") (VStr "portrait") Server.default_margin
              (VBool true) (VNum 1.0%float) (VNum 30000%float))
           "%PDF-1.7" eq_refl eq_refl eq_refl eq_refl eq_refl eq_refl eq_refl eq_refl).
Defined.

(** ** Further properties of the command line converter *)

(** *** Conversions that fail, conversions that succeed *)

(** X9. When the render fails, the methods of the command line converter
    throw the engine's error unchanged (the server prefixes it, they do
    not): the error is logged by [convertHTML], the browser is closed, the
    error is logged again by the calling method and thrown; no success
    message is printed and the file system is left as it was. *)
Theorem cli_render_error_propagates (env : Env) (this : nat) (source outputPdf : string)
    (options : value) (w : world) (o : Cli.RenderOptions) (e : engine) (msg : string) :
  Cli.resolve (or_default options (VObj [])) = Normal o ->
  engines w !! this = Some e ->
  render env (Some (Cli.pdfOptions o outputPdf)) (VStr source) = EngineError msg \/
  render env (Some (Cli.pdfOptions o outputPdf)) (VStr source) = TimedOut msg ->
  let po := Cli.pdfOptions o outputPdf in
  let w' := set_engines (alter (engine_done po) this) w in
  let failed := [EvSetOptions this po; EvCreate this (VStr source);
                 EvConsoleError ("❌ PDF creation failed: " +:+ msg);
                 EvCloseBrowser this] in
  Cli.convertFromURL env this source outputPdf options w
  = (Throw msg, w',
     [EvEnsureDir (path_dirname env outputPdf);
      EvConsoleLog ("Converting URL '" +:+ source +:+ "' to '" +:+ outputPdf +:+ "'...")]
     ++ failed ++ [EvConsoleError ("❌ Error converting URL: " +:+ msg)]) /\
  Cli.convertFromString env this source outputPdf options w
  = (Throw msg, w',
     [EvEnsureDir (path_dirname env outputPdf);
      EvConsoleLog ("Converting HTML string to '" +:+ outputPdf +:+ "'...")]
     ++ failed ++ [EvConsoleError ("❌ Error converting string: " +:+ msg)]) /\
  (forall htmlFile : string,
     fs w !! htmlFile = Some source ->
     Cli.convertFromFile env this htmlFile outputPdf options w
     = (Throw msg, w',
        [EvPathExists htmlFile; EvEnsureDir (path_dirname env outputPdf);
         EvConsoleLog ("Converting '" +:+ htmlFile +:+ "' to '" +:+ outputPdf +:+ "'...");
         EvReadFile htmlFile]
        ++ failed ++ [EvConsoleError ("❌ Error converting file: " +:+ msg)])) /\
  fs w' = fs w.
Proof.
  intros Hres He Hrender. cbv zeta.
  split; [|split; [|split; [|reflexivity]]].
  - unfold Cli.convertFromURL, try_catch, bind, ensureDir, console_log, console_error,
      emit, throw.
    rewrite (cli_convertHTML_run _ _ _ _ _ _ _ Hres), He. cbn [fmap option_fmap option_map].
    cbv zeta. destruct Hrender as [-> | ->]; reflexivity.
  - unfold Cli.convertFromString, try_catch, bind, ensureDir, console_log, console_error,
      emit, throw.
    rewrite (cli_convertHTML_run _ _ _ _ _ _ _ Hres), He. cbn [fmap option_fmap option_map].
    cbv zeta. destruct Hrender as [-> | ->]; reflexivity.
  - intros htmlFile Hfile.
    unfold Cli.convertFromFile, try_catch, bind, pathExists, ensureDir, console_log,
      console_error, emit, throw, readFile.
    rewrite Hfile, bool_decide_eq_true_2 by eauto. cbn [negb]. rewrite Hfile.
    rewrite (cli_convertHTML_run _ _ _ _ _ _ _ Hres), He. cbn [fmap option_fmap option_map].
    cbv zeta. destruct Hrender as [-> | ->]; reflexivity.
Qed.

Lemma cli_render_error_propagates_witness :
  engines CliSamples.world1 !! 0 = Some (mkEngine None false) /\
  result_of (Cli.convertFromURL (Samples.env (TimedOut "Navigation timeout of 30000 ms exceeded"))
               0 "https://example.com" "out.pdf" (VObj []) CliSamples.world1)
  = Throw "Navigation timeout of 30000 ms exceeded".
Proof.
  split; [reflexivity|].
  destruct (cli_render_error_propagates
              (Samples.env (TimedOut "Navigation timeout of 30000 ms exceeded"))
              0 "https://example.com" "out.pdf" (VObj []) CliSamples.world1
              (Cli.mkRenderOptions (VStr "A4") (VStr "portrait") Server.default_margin
                 (VBool true) (VNum 1.0%float) (VNum 30000%float) (VStr "new"))
              (mkEngine None false) "Navigation timeout of 30000 ms exceeded"
              eq_refl eq_refl (or_intror eq_refl)) as [Hurl _].
  rewrite Hurl. reflexivity.
Defined.

(** X10. A file conversion of the command line converter that succeeds:
    the existence check, the output directory and the read come first, the
    text of the file is handed to the engine as it is together with
    [path: outputPdf], the browser is closed and the success is reported.
    The document is at [outputPdf] afterwards and no other path of the file
    system has changed; the input file, in particular, is kept. *)
Theorem cli_file_conversion_succeeds (env : Env) (this : nat) (htmlFile outputPdf : string)
    (options : value) (w : world) (o : Cli.RenderOptions) (e : engine)
    (text pdf : string) :
  Cli.resolve (or_default options (VObj [])) = Normal o ->
  engines w !! this = Some e ->
  fs w !! htmlFile = Some text ->
  render env (Some (Cli.pdfOptions o outputPdf)) (VStr text) = Rendered pdf ->
  let po := Cli.pdfOptions o outputPdf in
  let r := Cli.convertFromFile env this htmlFile outputPdf options w in
  result_of r = Normal tt /\
  events_of r
  = [EvPathExists htmlFile; EvEnsureDir (path_dirname env outputPdf);
     EvConsoleLog ("Converting '" +:+ htmlFile +:+ "' to '" +:+ outputPdf +:+ "'...");
     EvReadFile htmlFile;
     EvSetOptions this po; EvCreate this (VStr text); EvWriteFile outputPdf;
     EvCloseBrowser this;
     EvConsoleLog ("✅ Successfully converted to '" +:+ outputPdf +:+ "'")] /\
  pdf_path po = Some outputPdf /\
  fs (world_of r) !! outputPdf = Some pdf /\
  (forall p : string, p <> outputPdf -> fs (world_of r) !! p = fs w !! p) /\
  engines (world_of r) !! this = Some (mkEngine (Some po) false).
Proof.
  intros Hres He Hfile Hrender. cbv zeta.
  unfold Cli.convertFromFile, try_catch, bind, pathExists, ensureDir, console_log,
    console_error, emit, throw, readFile.
  rewrite Hfile, bool_decide_eq_true_2 by eauto. cbn [negb]. rewrite Hfile.
  rewrite (cli_convertHTML_run _ _ _ _ _ _ _ Hres), He. cbn [fmap option_fmap option_map].
  cbv zeta. rewrite Hrender.
  cbn [result_of events_of world_of fst snd app set_fs set_engines fs engines].
  split; [reflexivity|]. split; [reflexivity|]. split; [reflexivity|].
  split; [apply lookup_insert_eq|].
  split; [intros p Hp; apply lookup_insert_ne; congruence|].
  rewrite list_lookup_alter_eq, He. reflexivity.
Qed.

Lemma cli_file_conversion_succeeds_witness :
  engines CliSamples.world1 !! 0 = Some (mkEngine None false) /\
  fs CliSamples.world1 !! "page.html" = Some Samples.page /\
  fs (world_of (Cli.convertFromFile (Samples.env (Rendered "%PDF-1.7")) 0 "page.html"
                  "out.pdf" (VObj []) CliSamples.world1)) !! "out.pdf"
  = Some "%PDF-1.7".
Proof.
  split; [reflexivity|]. split; [reflexivity|].
  apply (cli_file_conversion_succeeds (Samples.env (Rendered "%PDF-1.7")) 0 "page.html"
           "out.pdf" (VObj []) CliSamples.world1
           (Cli.mkRenderOptions (VStr "A4") (VStr "portrait") Server.default_margin
              (VBool true) (VNum 1.0%float) (VNum 30000%float) (VStr "new"))
           (mkEngine None false) Samples.page "%PDF-1.7"
           eq_refl eq_refl eq_refl eq_refl).
Defined.

(** *** The [--margin] value *)

Lemma split_comma_length (s : string) :
  length (CliMain.split_comma s) = S (commas s).
Proof.
  induction s as [|c s IH]; simpl; [reflexivity|].
  destruct (Ascii.eqb c ","); simpl; [rewrite IH; reflexivity|].
  destruct (CliMain.split_comma s) as [|piece pieces]; simpl in *; [discriminate IH|exact IH].
Qed.

(** Joining the pieces with commas gives the string back. *)
Lemma split_comma_concat (s : string) :
  String.concat "," (CliMain.split_comma s) = s.
Proof.
  induction s as [|c s IH]; simpl; [reflexivity|].
  destruct (Ascii.eqb_spec c ","%char) as [->|Hc].
  - pose proof (split_comma_length s) as Hlen.
    destruct (CliMain.split_comma s) as [|piece pieces]; [discriminate Hlen|].
    change (String "," (String.concat "," (piece :: pieces)) = String "," s).
    rewrite IH. reflexivity.
  - pose proof (split_comma_length s) as Hlen.
    destruct (CliMain.split_comma s) as [|piece pieces]; [discriminate Hlen|].
    rewrite <- IH. destruct pieces; reflexivity.
Qed.

Lemma or_string_px (piece : string) : CliMain.or_string (Some (piece +:+ "px")) "20px" = piece +:+ "px".
Proof. destruct piece; reflexivity. Qed.

Lemma or_string_margins (js : CliMain.Builtins) (options : CliMain.Options) (i : nat) :
  CliMain.or_string (CliMain.margins js options !! i) "20px" = margin_side js options i.
Proof.
  unfold CliMain.margins, margin_side. rewrite list_lookup_fmap.
  destruct (CliMain.split_comma (CliMain.margin options) !! i) as [piece|]; simpl;
    [apply or_string_px | reflexivity].
Qed.

(** X11. The margin of the [convert] command always has its four sides.
    Side number [i] (top, bottom, left, right) is piece [i] of the
    comma-separated [--margin] value, trimmed, with [px] appended; it falls
    back to [20px] exactly when the value has no piece [i], that is when it
    has fewer than [i] commas.  A piece that is there never falls back, not
    even an empty one, which gives the side [px]. *)
Theorem margin_of_sides (js : CliMain.Builtins) (options : CliMain.Options) :
  CliMain.margin_of js options
  = VObj [("top", VStr (margin_side js options 0));
          ("bottom", VStr (margin_side js options 1));
          ("left", VStr (margin_side js options 2));
          ("right", VStr (margin_side js options 3))] /\
  (forall i : nat,
     commas (CliMain.margin options) < i -> margin_side js options i = "20px") /\
  (forall i : nat,
     i <= commas (CliMain.margin options) ->
     exists piece : string,
       CliMain.split_comma (CliMain.margin options) !! i = Some piece /\
       margin_side js options i = CliMain.trim js piece +:+ "px") /\
  String.concat "," (CliMain.split_comma (CliMain.margin options)) = CliMain.margin options.
Proof.
  split; [|split; [|split; [|apply split_comma_concat]]].
  - unfold CliMain.margin_of. cbv zeta. rewrite !or_string_margins. reflexivity.
  - intros i Hi. unfold margin_side.
    rewrite (lookup_ge_None_2 (CliMain.split_comma (CliMain.margin options)) i);
      [reflexivity|].
    rewrite split_comma_length. lia.
  - intros i Hi. unfold margin_side.
    destruct (lookup_lt_is_Some_2 (CliMain.split_comma (CliMain.margin options)) i)
      as [piece Hpiece].
    { rewrite split_comma_length. lia. }
    exists piece. rewrite Hpiece. split; reflexivity.
Qed.

(** *** From the flags to the engine *)

Lemma cli_resolve_flags (js : CliMain.Builtins) (options : CliMain.Options)
    (outputPdf : string) :
  exists o : Cli.RenderOptions,
    Cli.resolve (or_default (CliMain.pdfOptions js options) (VObj [])) = Normal o /\
    Cli.pdfOptions o outputPdf = engine_options js options outputPdf.
Proof.
  eexists. split; [reflexivity|].
  unfold Cli.pdfOptions, engine_options.
  cbn [Cli.format Cli.orientation Cli.margin Cli.printBackground Cli.scale Cli.timeout
       Cli.headless CliMain.pdfOptions get own_prop or_default String.eqb Ascii.eqb
       Bool.eqb strict_eq_str].
  unfold CliMain.margin_of. cbv zeta. rewrite !or_string_margins. reflexivity.
Qed.

Lemma alter_new (f : engine -> engine) (es : list engine) (e : engine) :
  alter f (length es) (es ++ [e]) = es ++ [f e].
Proof. induction es as [|x es IH]; simpl; [reflexivity | f_equal; exact IH]. Qed.

(** Splits a goal about [CliMain.action env js options w] into its runs:
    no output, no source, and for each source every way the conversion can
    go. *)
Ltac action_cases env js options w :=
  unfold CliMain.action;
  destruct (CliMain.given (CliMain.output options)) eqn:?Houtput; cbn [negb];
  [ destruct (negb (CliMain.given (CliMain.input options)) &&
              negb (CliMain.given (CliMain.url options)) &&
              negb (CliMain.given (CliMain.string_ options))) eqn:?Hsource;
    [ | unfold Cli.new_HTMLToPDFConverter, new_PuppeteerHTMLPDF, CliMain.convert, Cli.close,
          closeBrowser;
        destruct (cli_resolve_flags js options
                    (default EmptyString (CliMain.output options))) as (?o & ?Hres & ?Hpo);
        destruct (CliMain.given (CliMain.input options)) eqn:?Hinput;
        [ unfold Cli.convertFromFile, try_catch, bind, pathExists, ensureDir, console_log,
            console_error, emit, throw, readFile;
          destruct (bool_decide _) eqn:?Hexists; cbn [negb fs set_engines];
          [ destruct (fs w !! _) as [?text|] eqn:?Hfile;
            [ rewrite (cli_convertHTML_run _ _ _ _ _ _ _ Hres), Hpo;
              cbn [engines set_engines]; rewrite lookup_new;
              cbn [fmap option_fmap option_map]; cbv zeta;
              destruct (render env _ _) eqn:?Hrender
            | ]
          | ]
        | destruct (CliMain.given (CliMain.url options)) eqn:?Hurl;
          [ unfold Cli.convertFromURL, try_catch, bind, ensureDir, console_log,
              console_error, emit, throw;
            rewrite (cli_convertHTML_run _ _ _ _ _ _ _ Hres), Hpo;
            cbn [engines set_engines]; rewrite lookup_new;
            cbn [fmap option_fmap option_map]; cbv zeta;
            destruct (render env _ _) eqn:?Hrender
          | destruct (CliMain.given (CliMain.string_ options)) eqn:?Hstring;
            [ unfold Cli.convertFromString, try_catch, bind, ensureDir, console_log,
                console_error, emit, throw;
              rewrite (cli_convertHTML_run _ _ _ _ _ _ _ Hres), Hpo;
              cbn [engines set_engines]; rewrite lookup_new;
              cbn [fmap option_fmap option_map]; cbv zeta;
              destruct (render env _ _) eqn:?Hrender
            | discriminate Hsource ] ] ] ]
  | ];
  unfold set_engines, set_fs;
  cbn [fst snd app engines fs res];
  rewrite ?alter_new.

(** X12. Every render of the [convert] command runs with the options made
    from the flags and with nothing else: the format and the background
    flag as given, [landscape] set exactly for [--orientation landscape],
    the four-sided margin, the parsed scale and timeout, [headless: 'new'],
    the sandbox flags and [path] set to the output file.  None of the
    defaults of [convertHTML] is used but that of [headless]. *)
Theorem flags_reach_engine (env : Env) (js : CliMain.Builtins) (options : CliMain.Options)
    (w : world) :
  let evs := snd (CliMain.action env js options w) in
  let po := engine_options js options (default EmptyString (CliMain.output options)) in
  (forall (h : nat) (po' : PdfOptions),
     In (EvSetOptions h po') evs -> h = length (engines w) /\ po' = po) /\
  (forall (h : nat) (c : value),
     In (EvCreate h c) evs -> In (EvSetOptions h po) evs).
Proof.
  cbv zeta. split.
  - intros h po' Hin. revert Hin.
    action_cases env js options w; cbn [In];
      intuition (try discriminate); simplify_eq; reflexivity.
  - intros h c Hin. revert Hin.
    action_cases env js options w; cbn [In];
      intuition (try discriminate); simplify_eq; auto 10.
Qed.

(** *** How the command ends *)

(** The command once an output path and a source are given: a new
    converter, the conversion, and then either the [finally] block or the
    exit of the [catch] block. *)
Lemma action_run (env : Env) (js : CliMain.Builtins) (options : CliMain.Options)
    (w : world) :
  CliMain.given (CliMain.output options) = true ->
  CliMain.given (CliMain.input options) = true \/
  CliMain.given (CliMain.url options) = true \/
  CliMain.given (CliMain.string_ options) = true ->
  CliMain.action env js options w
  = match CliMain.convert env js (length (engines w)) options
            (with_engine (mkEngine None false) w) with
    | (Normal _, w2, evs2) =>
        (CliMain.Returned (Normal tt),
         set_engines (alter (fun e => mkEngine (eng_options e) false) (length (engines w))) w2,
         evs2 ++ [EvCloseBrowser (length (engines w))])
    | (Throw error, w2, evs2) =>
        (CliMain.Exit 1, w2, evs2 ++ [EvConsoleError ("❌ Conversion failed: " +:+ error)])
    end.
Proof.
  intros Houtput Hsource. unfold CliMain.action. rewrite Houtput. cbn [negb].
  replace (negb (CliMain.given (CliMain.input options)) &&
           negb (CliMain.given (CliMain.url options)) &&
           negb (CliMain.given (CliMain.string_ options))) with false
    by (destruct Hsource as [-> | [-> | ->]];
        repeat (rewrite ?andb_false_r; cbn [negb andb]); reflexivity).
  unfold Cli.new_HTMLToPDFConverter, new_PuppeteerHTMLPDF, with_engine.
  destruct (CliMain.convert env js _ options _) as [[[[]|error] w2] evs2]; reflexivity.
Qed.

Lemma action_endings_frame (env : Env) (js : CliMain.Builtins) (options : CliMain.Options)
    (w : world) :
  let r := CliMain.action env js options w in
  (fst (fst r) = CliMain.Exit 1 \/ fst (fst r) = CliMain.Returned (Normal tt)) /\
  closed_after w (snd (fst r)) /\
  every_create_closed (snd r) = true /\
  (fst (fst r) = CliMain.Exit 1 -> fs (snd (fst r)) = fs w) /\
  (fst (fst r) = CliMain.Returned (Normal tt) ->
   last (snd r) = Some (EvCloseBrowser (length (engines w)))) /\
  (CliMain.given (CliMain.output options) = false \/
   (CliMain.given (CliMain.input options) = false /\
    CliMain.given (CliMain.url options) = false /\
    CliMain.given (CliMain.string_ options) = false) ->
   fst (fst r) = CliMain.Exit 1 /\ snd (fst r) = w /\
   exists msg : string, snd r = [EvConsoleError msg]).
Proof.
  cbv zeta.
  action_cases env js options w;
    (split; [first [left; reflexivity | right; reflexivity]|];
     split; [first [ apply closed_after_same; reflexivity
                   | eapply closed_after_new; [|reflexivity]; reflexivity ]|];
     split; [cbn [every_create_closed closes existsb]; rewrite ?Nat.eqb_refl; reflexivity|];
     split; [intros Hend; first [reflexivity | discriminate Hend]|];
     split; [intros Hend; first [reflexivity | discriminate Hend]|];
     first [ intros _; split; [reflexivity|]; split; [reflexivity|]; eexists; reflexivity
           | intros [Hno|(Hno1 & Hno2 & Hno3)]; exfalso;
             first [ discriminate Hno
                   | rewrite Hno1, Hno2, Hno3 in Hsource; discriminate Hsource
                   | congruence ] ]).
Qed.

(** X13. The [convert] command ends in one of two ways, whatever the
    engine does.  Given an output path and a source, it makes a converter
    and converts: when the conversion throws, the command prints
    ['Conversion failed'] with the error's message and exits with code 1,
    and this is its last act, the [finally] block does not run; when the
    conversion goes through, the command calls [close] and returns
    normally.  Without an output path or without a source it exits with
    code 1 after the error message and nothing else.  When it exits no
    file has changed (the directory of the output may have been made); in
    every case no browser is left running and every [create] has been
    followed by its [closeBrowser]. *)
Theorem action_endings (env : Env) (js : CliMain.Builtins) (options : CliMain.Options)
    (w : world) :
  let r := CliMain.action env js options w in
  let c := CliMain.convert env js (length (engines w)) options
             (with_engine (mkEngine None false) w) in
  (fst (fst r) = CliMain.Exit 1 \/ fst (fst r) = CliMain.Returned (Normal tt)) /\
  closed_after w (snd (fst r)) /\
  every_create_closed (snd r) = true /\
  (fst (fst r) = CliMain.Exit 1 -> fs (snd (fst r)) = fs w) /\
  (fst (fst r) = CliMain.Returned (Normal tt) ->
   last (snd r) = Some (EvCloseBrowser (length (engines w)))) /\
  (CliMain.given (CliMain.output options) = false \/
   (CliMain.given (CliMain.input options) = false /\
    CliMain.given (CliMain.url options) = false /\
    CliMain.given (CliMain.string_ options) = false) ->
   fst (fst r) = CliMain.Exit 1 /\ snd (fst r) = w /\
   exists msg : string, snd r = [EvConsoleError msg]) /\
  (CliMain.given (CliMain.output options) = true ->
   CliMain.given (CliMain.input options) = true \/
   CliMain.given (CliMain.url options) = true \/
   CliMain.given (CliMain.string_ options) = true ->
   (forall error : string,
      result_of c = Throw error ->
      fst (fst r) = CliMain.Exit 1 /\
      snd (fst r) = world_of c /\
      snd r = events_of c ++ [EvConsoleError ("❌ Conversion failed: " +:+ error)]) /\
   (result_of c = Normal tt ->
      fst (fst r) = CliMain.Returned (Normal tt) /\
      snd r = events_of c ++ [EvCloseBrowser (length (engines w))])).
Proof.
  cbv zeta.
  destruct (action_endings_frame env js options w) as (H1 & H2 & H3 & H4 & H5 & H6).
  repeat (split; [assumption|]).
  intros Houtput Hsource. rewrite (action_run env js options w Houtput Hsource).
  destruct (CliMain.convert env js _ options _) as [[[[]|error'] w2] evs2];
    cbn [result_of world_of events_of fst snd]; split.
  - intros error Hthrow. discriminate Hthrow.
  - intros _. split; reflexivity.
  - intros error [= <-]. repeat split.
  - intros Hnormal. discriminate Hnormal.
Qed.

Lemma action_endings_witness :
  CliMain.given (CliMain.output CliSamples.from_url) = true /\
  CliMain.given (CliMain.url CliSamples.from_url) = true /\
  fst (fst (CliMain.action (Samples.env (TimedOut "Navigation timeout of 30000 ms exceeded"))
              CliSamples.js CliSamples.from_url CliSamples.world1))
  = CliMain.Exit 1 /\
  last (snd (CliMain.action (Samples.env (TimedOut "Navigation timeout of 30000 ms exceeded"))
               CliSamples.js CliSamples.from_url CliSamples.world1))
  = Some (EvConsoleError "❌ Conversion failed: Navigation timeout of 30000 ms exceeded").
Proof.
  split; [reflexivity|]. split; [reflexivity|].
  destruct (action_endings (Samples.env (TimedOut "Navigation timeout of 30000 ms exceeded"))
              CliSamples.js CliSamples.from_url CliSamples.world1)
    as (_ & _ & _ & _ & _ & _ & Hconvert).
  destruct (Hconvert eq_refl (or_intror (or_introl eq_refl))) as [Hthrows _].
  destruct (Hthrows "Navigation timeout of 30000 ms exceeded" eq_refl)
    as (Hexit & _ & Hevents).
  split; [exact Hexit|].
  rewrite Hevents. reflexivity.
Defined.

(** X14. The sources of the [convert] command have a fixed priority: with
    [--input] the command does what it does without [--url] and [--string],
    and without [--input] but with [--url] it does what it does without
    [--string]; the sources after the first one given are never looked
    at. *)
Theorem action_source_priority (env : Env) (js : CliMain.Builtins)
    (options : CliMain.Options) (w : world) :
  (CliMain.given (CliMain.input options) = true ->
   CliMain.action env js options w = CliMain.action env js (only_input options) w) /\
  (CliMain.given (CliMain.input options) = false ->
   CliMain.given (CliMain.url options) = true ->
   CliMain.action env js options w = CliMain.action env js (without_string options) w).
Proof.
  split.
  - intros Hinput. unfold CliMain.action, CliMain.convert, only_input.
    cbn [CliMain.input CliMain.url CliMain.string_ CliMain.output].
    rewrite Hinput. cbn [negb andb]. reflexivity.
  - intros Hinput Hurl. unfold CliMain.action, CliMain.convert, without_string.
    cbn [CliMain.input CliMain.url CliMain.string_ CliMain.output].
    rewrite Hinput, Hurl. cbn [negb andb]. reflexivity.
Qed.

Lemma action_source_priority_witness :
  CliMain.given (CliMain.input CliSamples.from_file) = true /\
  CliMain.action (Samples.env (Rendered "%PDF-1.7")) CliSamples.js CliSamples.from_file
    CliSamples.world1
  = CliMain.action (Samples.env (Rendered "%PDF-1.7")) CliSamples.js
      (only_input CliSamples.from_file) CliSamples.world1.
Proof.
  split; [reflexivity|].
  destruct (action_source_priority (Samples.env (Rendered "%PDF-1.7")) CliSamples.js
              CliSamples.from_file CliSamples.world1) as [Hinput _].
  apply Hinput. reflexivity.
Defined.
